(** * JarvisX speech-to-text service: the transcription pipeline

    A shallow embedding of [services/stt/main.py]: the single-item
    handler [transcribe_audio] and the batch handler [transcribe_batch],
    together with the pieces of the Python runtime they rely on
    ([str.strip], [str.lower], [os.path.splitext], exceptions,
    dictionaries, the temporary-file calls of [tempfile] and [os]).

    Python strings are modelled by [string]; a character stands for the
    code point of the same number (0..255).  The handlers are written in
    explicit state-passing style over a state that holds the filesystem,
    the name generator of [tempfile], the process-wide engine handle and
    the log of engine invocations.  The temporary file object keeps what
    it has not yet written in a buffer of its own, and the two versions
    of Starlette's [UploadFile] and [HTTPException] that differ for the
    batch handler are both covered. *)

From Stdlib Require Import ZArith Ascii String DecimalString List Permutation Lia.
From stdpp Require Import gmap strings list fin_maps.

Open Scope Z_scope.
Set Warnings "-register-all".

(** ** Python strings *)

Module PyStr.

(** [str.isspace] on one code point below 256 (CPython's
    [_PyUnicode_IsWhitespace]): TAB..CR, FS..US, SPACE, NEL, NBSP. *)
Definition isspace (c : ascii) : bool :=
  let n := N_of_ascii c in
  ((9 <=? n) && (n <=? 13) || (28 <=? n) && (n <=? 32)
   || (n =? 133) || (n =? 160))%N.

(** [str.lower] on one code point below 256: A..Z and the Latin-1
    capitals U+00C0..U+00DE (U+00D7, the multiplication sign, apart).
    Above that range [str.lower] also looks at the letters around a
    letter (the final sigma); such names are outside this model. *)
Definition lower_char (c : ascii) : ascii :=
  let n := N_of_ascii c in
  if ((65 <=? n) && (n <=? 90)
      || (192 <=? n) && (n <=? 222) && negb (n =? 215))%N
  then ascii_of_N (n + 32) else c.

Fixpoint lower (s : string) : string :=
  match s with
  | EmptyString => EmptyString
  | String c r => String (lower_char c) (lower r)
  end.

Fixpoint lstrip (s : string) : string :=
  match s with
  | EmptyString => EmptyString
  | String c r => if isspace c then lstrip r else s
  end.

Fixpoint rstrip (s : string) : string :=
  match s with
  | EmptyString => EmptyString
  | String c r =>
      match rstrip r with
      | EmptyString => if isspace c then EmptyString else String c EmptyString
      | r' => String c r'
      end
  end.

(** [s.strip()] *)
Definition strip (s : string) : string := rstrip (lstrip s).

(** every character of [s] is white space *)
Fixpoint all_space (s : string) : bool :=
  match s with
  | EmptyString => true
  | String c r => isspace c && all_space r
  end.

(** first and last character, when there is one *)
Definition first (s : string) : option ascii :=
  match s with EmptyString => None | String c _ => Some c end.

Fixpoint last (s : string) : option ascii :=
  match s with
  | EmptyString => None
  | String c EmptyString => Some c
  | String _ r => last r
  end.

(** [x in s] for strings: [x] occurs in [s] *)
Definition occurs (x s : string) : Prop :=
  exists pre post, s = pre +:+ x +:+ post.

(** [s.rfind(c)] for a one-character [c]: the last index, or -1 *)
Fixpoint rfind_from (c : ascii) (s : string) (i last : Z) : Z :=
  match s with
  | EmptyString => last
  | String a r => rfind_from c r (i + 1) (if Ascii.eqb a c then i else last)
  end.

Definition rfind (s : string) (c : ascii) : Z := rfind_from c s 0 (-1).

(** [s[i:i+1]] for [0 <= i] *)
Definition char_at (s : string) (i : Z) : string :=
  String.substring (Z.to_nat i) 1 s.

(** [s[:i]] and [s[i:]] for [0 <= i] *)
Definition take (i : Z) (s : string) : string :=
  String.substring 0 (Z.to_nat i) s.

Definition drop (i : Z) (s : string) : string :=
  String.substring (Z.to_nat i) (String.length s - Z.to_nat i) s.

(** [repr(s)] for a string without quotes, backslashes or control
    characters (all that the service formats this way) *)
Definition repr (s : string) : string := "'" +:+ s +:+ "'".

(** [sep.join(l)] *)
Fixpoint join (sep : string) (l : list string) : string :=
  match l with
  | [] => EmptyString
  | [x] => x
  | x :: r => x +:+ sep +:+ join sep r
  end.

(** [repr] of a set of strings whose iteration order is [l] *)
Definition repr_set (l : list string) : string :=
  "{" +:+ join ", " (map repr l) +:+ "}".

End PyStr.

(** ** [os.path.splitext] (posixpath) *)

Module PosixPath.

(** The loop of [genericpath._splitext] that skips leading dots:
    [true] when some character in [filenameIndex, filenameIndex + n)
    is not a dot. *)
Fixpoint has_stem (p : string) (filenameIndex : Z) (n : nat) : bool :=
  match n with
  | O => false
  | S n' =>
      if negb (String.eqb (PyStr.char_at p filenameIndex) ".") then true
      else has_stem p (filenameIndex + 1) n'
  end.

Definition splitext (p : string) : string * string :=
  let sepIndex := PyStr.rfind p "/" in
  let dotIndex := PyStr.rfind p "." in
  if (sepIndex <? dotIndex)
     && has_stem p (sepIndex + 1) (Z.to_nat (dotIndex - (sepIndex + 1)))
  then (PyStr.take dotIndex p, PyStr.drop dotIndex p)
  else (p, EmptyString).

End PosixPath.

(** ** Python values, exceptions and results *)

(** The values the handlers see.  A float is the finite binary number
    [m * 2^e]; dictionaries keep insertion order. *)
Inductive pyval : Type :=
| PNone
| PBool (b : bool)
| PInt (z : Z)
| PFloat (m e : Z)
| PStr (s : string)
| PList (l : list pyval)
| PDict (d : list (string * pyval)).

Abbreviation dict := (list (string * pyval)).

(** What a [TypeError] of the interpreter is about; the type names are
    those of [type(x).__name__]. *)
Inductive type_error : Type :=
| NotSubscriptable (type_name : string)      (* ['int' object is not subscriptable] *)
| StringIndex (index_type : string)          (* [string indices must be integers] *)
| ListIndex (index_type : string)            (* [list indices must be integers or slices] *)
| NotIterable (type_name : string)           (* ['int' object is not iterable] *)
| UnexpectedKeyword (callee keyword : string).  (* [f() got an unexpected keyword argument] *)

(** Exceptions, all of them subclasses of [Exception].  [OSError]
    stands for the class and its subclasses ([FileExistsError],
    [FileNotFoundError], [PermissionError], ...).  The exceptions the
    interpreter raises keep what their message is made of, not a text:
    the text is [str(e)], which the runtime gives. *)
Inductive exn : Type :=
| HTTPException (status_code : Z) (detail : string)
| KeyError (key : string)
| TypeError (what : type_error)
| AttributeError (type_name attribute : string)
| UnboundLocalError (name : string)
| OSError (msg : string)
| ValueError (msg : string)
| RuntimeError (msg : string).

(** [isinstance(e, OSError)], the test of [except OSError] *)
Definition is_OSError (e : exn) : bool :=
  match e with OSError _ => true | _ => false end.

(** A computation returns a value or raises. *)
Inductive result (A : Type) : Type :=
| Return (a : A)
| Raise (e : exn).
Arguments Return {A} a.
Arguments Raise {A} e.

Definition bind {A B} (m : result A) (k : A -> result B) : result B :=
  match m with
  | Return a => k a
  | Raise e => Raise e
  end.

Notation "x <- m ;; k" := (bind m (fun x => k))
  (at level 100, m at next level, right associativity).

(** [[k(x) for x in l]], left to right, stopping at the first raise *)
Fixpoint comprehension {A B} (k : A -> result B) (l : list A) : result (list B) :=
  match l with
  | [] => Return []
  | x :: r => y <- k x ;; ys <- comprehension k r ;; Return (y :: ys)
  end.

Module Py.

(** [type(v).__name__] *)
Definition type_name (v : pyval) : string :=
  match v with
  | PNone => "NoneType"
  | PBool _ => "bool"
  | PInt _ => "int"
  | PFloat _ _ => "float"
  | PStr _ => "str"
  | PList _ => "list"
  | PDict _ => "dict"
  end.

(** [d.get(k)]: [None] stands for a missing key *)
Fixpoint dict_get (d : dict) (k : string) : option pyval :=
  match d with
  | [] => None
  | (k', v) :: r => if String.eqb k' k then Some v else dict_get r k
  end.

(** [k in d] *)
Definition dict_has (d : dict) (k : string) : bool :=
  match dict_get d k with Some _ => true | None => false end.

(** [d.get(k, default)] *)
Definition dict_get_default (d : dict) (k : string) (default : pyval) : pyval :=
  match dict_get d k with Some v => v | None => default end.

(** [d[k]] *)
Definition dict_getitem (d : dict) (k : string) : result pyval :=
  match dict_get d k with
  | Some v => Return v
  | None => Raise (KeyError k)
  end.

(** [d[k] = v]: the value of an existing key is replaced in place, a
    new key goes to the end *)
Fixpoint dict_set (d : dict) (k : string) (v : pyval) : dict :=
  match d with
  | [] => [(k, v)]
  | (k', v') :: r =>
      if String.eqb k' k then (k, v) :: r else (k', v') :: dict_set r k v
  end.

(** [v[k]] for a string [k] *)
Definition getitem (v : pyval) (k : string) : result pyval :=
  match v with
  | PDict d => dict_getitem d k
  | PStr _ => Raise (TypeError (StringIndex "str"))
  | PList _ => Raise (TypeError (ListIndex "str"))
  | _ => Raise (TypeError (NotSubscriptable (type_name v)))
  end.

(** [v.strip()] *)
Definition strip (v : pyval) : result pyval :=
  match v with
  | PStr s => Return (PStr (PyStr.strip s))
  | _ => Raise (AttributeError (type_name v) "strip")
  end.

Fixpoint chars (s : string) : list pyval :=
  match s with
  | EmptyString => []
  | String c r => PStr (String c EmptyString) :: chars r
  end.

(** the items [for x in v] goes through *)
Definition iter (v : pyval) : result (list pyval) :=
  match v with
  | PList l => Return l
  | PStr s => Return (chars s)
  | PDict d => Return (map (fun kv => PStr (fst kv)) d)
  | _ => Raise (TypeError (NotIterable (type_name v)))
  end.

(** an [Optional[str]] argument as a value *)
Definition of_option (o : option string) : pyval :=
  match o with Some s => PStr s | None => PNone end.

End Py.
(** ** The service: data *)

Abbreviation bytes := (list Byte.byte).

(** Starlette's [UploadFile].  The underlying file object [file] is
    given by what reading it to the end yields. *)
Record UploadFile : Type := {
  filename : string;
  file : result bytes;
  content_type : string
}.

(** Starlette's [JSONResponse].  The object keeps the rendered [body]
    only; [content], the value it was built from, is kept beside it so
    that properties of the response can be stated on the value. *)
Record JSONResponse : Type := {
  content : pyval;
  body : string;
  status_code : Z
}.

(** The loaded Whisper model: [transcribe(audio, language=...,
    word_timestamps=...)] reads the file at path [audio] in the given
    filesystem and returns the result dictionary or raises. *)
Record Whisper : Type := {
  transcribe : gmap string bytes -> string -> option string -> bool -> result dict
}.

(** One invocation of the engine, as logged. *)
Inductive event : Type :=
| EngineCall (audio : string) (language : option string) (word_timestamps : bool).

Record state : Type := {
  whisper_model : option Whisper;    (* the global [whisper_model] *)
  fs : gmap string bytes;            (* the files that exist, by path, with the bytes on disk *)
  tmp_names : list string;           (* the names [tempfile] will draw *)
  engine_log : list event            (* engine invocations, oldest first *)
}.

Definition set_fs (f : gmap string bytes -> gmap string bytes) (st : state) : state :=
  {| whisper_model := whisper_model st; fs := f (fs st);
     tmp_names := tmp_names st; engine_log := engine_log st |}.

Definition set_tmp_names (l : list string) (st : state) : state :=
  {| whisper_model := whisper_model st; fs := fs st;
     tmp_names := l; engine_log := engine_log st |}.

Definition log_event (ev : event) (st : state) : state :=
  {| whisper_model := whisper_model st; fs := fs st;
     tmp_names := tmp_names st; engine_log := engine_log st ++ [ev] |}.

(** The two Starlette interfaces the batch handler can meet.  Up to
    0.23.1 [UploadFile(filename, file, content_type)] takes the keywords
    of line 158 and [HTTPException] has no [__str__]; from 0.24 on the
    constructor is [UploadFile(file, *, size, filename, headers)]. *)
Inductive starlette_version : Type :=
| Starlette_legacy
| Starlette_current.

(** What the handlers take from the interpreter, the framework and the
    operating system without fixing it themselves. *)
Record Runtime : Type := {
  starlette : starlette_version;
  exn_str : exn -> string;                 (* [str(e)], see [py_str] *)
  json_dumps : pyval -> string;            (* the text [JSONResponse] renders *)
  set_iter : list string -> list string;   (* iteration order of a set literal *)
  buffer_size : nat;                       (* buffer of the temporary file object *)
  write_fault : string -> bytes -> option string;
                                           (* these bytes cannot be written to the file, with the
                                              message: at [write] when they pass the buffer, at the
                                              close of the file object when they were kept in it *)
  unlink_fault : string -> option string   (* [os.unlink] failing, with its message *)
}.

(** ** The service: operations *)

Section Service.

Context (rt : Runtime).

(** [str(e)].  With the legacy interface [HTTPException] defines no
    [__str__] and the handlers build it from keywords alone, so its
    [args] are empty and [str] gives the empty string. *)
Definition py_str (e : exn) : string :=
  match e, starlette rt with
  | HTTPException _ _, Starlette_legacy => EmptyString
  | _, _ => exn_str rt e
  end.

(** [JSONResponse(content=c)]; every [pyval] can be rendered, so the
    constructor does not raise *)
Definition JSONResponse_new (c : pyval) : JSONResponse :=
  {| content := c; body := json_dumps rt c; status_code := 200 |}.

Definition allowed_extensions : list string :=
  [".wav"; ".mp3"; ".m4a"; ".flac"; ".ogg"; ".webm"].

(** [file_ext in allowed_extensions] *)
Definition ext_allowed (file_ext : string) : bool :=
  existsb (String.eqb file_ext) allowed_extensions.

(** [os.path.splitext(file.filename)[1].lower()] *)
Definition file_ext_of (name : string) : string :=
  PyStr.lower (snd (PosixPath.splitext name)).

(** the detail of the 400 rejection *)
Definition unsupported_detail (file_ext : string) : string :=
  "Unsupported file type: " +:+ file_ext +:+ ". Allowed: "
    +:+ PyStr.repr_set (set_iter rt allowed_extensions).

(** [language if language in ["si", "en"] else None] *)
Definition effective_language (language : option string) : option string :=
  match language with
  | Some l => if String.eqb l "si" || String.eqb l "en" then Some l else None
  | None => None
  end.

(** [tempfile.NamedTemporaryFile(delete=False, suffix=...)]: the first
    drawn name that is free is created empty; when every drawn name is
    taken the call raises [FileExistsError]. *)
Fixpoint mkstemp (suffix : string) (files : gmap string bytes) (names : list string)
  : result string * list string :=
  match names with
  | [] => (Raise (OSError "No usable temporary file name found"), [])
  | n :: rest =>
      let path := "/tmp/tmp" +:+ n +:+ suffix in
      match files !! path with
      | None => (Return path, rest)
      | Some _ => mkstemp suffix files rest
      end
  end.

Definition NamedTemporaryFile (suffix : string) (st : state) : result string * state :=
  match mkstemp suffix (fs st) (tmp_names st) with
  | (Return path, rest) => (Return path, set_fs (insert path []) (set_tmp_names rest st))
  | (Raise e, rest) => (Raise e, set_tmp_names rest st)
  end.

(** Whether the first [write] of [data] to a fresh file object stays in
    its buffer ([BufferedRandom.write]: the data fits the free space). *)
Definition buffered (data : bytes) : bool :=
  (length data <=? buffer_size rt)%nat.

(** What the file on disk holds, and what the buffer holds, after that
    [write] returned. *)
Definition on_disk (data : bytes) : bytes := if buffered data then [] else data.
Definition pending (data : bytes) : bytes := if buffered data then data else [].

(** [temp_file.write(content)] on the file just created, line 95.  Data
    that fits the buffer is kept there and nothing reaches the disk;
    longer data is written through.  The call returns what is left in
    the buffer.  A write that fails leaves the file as it was. *)
Definition temp_file_write (path : string) (data : bytes) (st : state)
  : result bytes * state :=
  if buffered data then (Return data, st)
  else
    match write_fault rt path data with
    | Some msg => (Raise (OSError msg), st)
    | None => (Return [], set_fs (insert path data) st)
    end.

(** Leaving the [with] block closes the file object, which writes what
    is left in the buffer [unwritten].  The bytes reach the file at [path]
    when it still has that name, a file without a name otherwise. *)
Definition temp_file_close (path : string) (unwritten : bytes) (st : state)
  : result unit * state :=
  match unwritten with
  | [] => (Return tt, st)
  | _ :: _ =>
      match write_fault rt path unwritten with
      | Some msg => (Raise (OSError msg), st)
      | None =>
          (Return tt,
           match fs st !! path with
           | Some _ => set_fs (insert path unwritten) st
           | None => st
           end)
      end
  end.

(** [os.unlink(path)] *)
Definition os_unlink (path : string) (st : state) : result unit * state :=
  match unlink_fault rt path with
  | Some msg => (Raise (OSError msg), st)
  | None =>
      match fs st !! path with
      | Some _ => (Return tt, set_fs (delete path) st)
      | None => (Raise (OSError "No such file or directory"), st)
      end
  end.

(** [whisper_model.transcribe(audio, language=..., word_timestamps=...)]:
    the engine reads the files as they are on disk at that moment; the
    call is recorded with the arguments it was made with. *)
Definition call_engine (model : Whisper) (audio : string) (language : option string)
    (word_timestamps : bool) (st : state) : result dict * state :=
  (transcribe model (fs st) audio language word_timestamps,
   log_event (EngineCall audio language word_timestamps) st).

(** one element of the [segments] comprehension *)
Definition segment_entry (segment : pyval) : result pyval :=
  s <- Py.getitem segment "start" ;;
  e <- Py.getitem segment "end" ;;
  t <- Py.getitem segment "text" ;;
  Return (PDict [("start", s); ("end", e); ("text", t)]).

(** lines 107-122: the response dictionary *)
Definition build_response (res : dict) (name : string)
    (language : option string) (timestamp : bool) : result pyval :=
  raw <- Py.dict_getitem res "text" ;;
  text <- Py.strip raw ;;
  let response :=
    [("text", text);
     ("language", Py.dict_get_default res "language" (Py.of_option language));
     ("duration", Py.dict_get_default res "duration" (PInt 0));
     ("filename", PStr name)] in
  if timestamp && Py.dict_has res "segments" then
    segs <- Py.dict_getitem res "segments" ;;
    items <- Py.iter segs ;;
    entries <- comprehension segment_entry items ;;
    Return (PDict (Py.dict_set response "segments" (PList entries)))
  else Return (PDict response).

(** lines 107-125: from what the engine call gave to what [try] gives *)
Definition response_of (r : result dict) (name : string)
    (language : option string) (timestamp : bool) : result JSONResponse :=
  res <- r ;;
  response <- build_response res name language timestamp ;;
  Return (JSONResponse_new response).

(** lines 101-125: the engine call on the staging file and the response *)
Definition run_engine (model : Whisper) (upload : UploadFile)
    (language : option string) (timestamp : bool) (temp_file_path : string)
    (st : state) : result JSONResponse * state :=
  let '(r, st1) :=
    call_engine model temp_file_path (effective_language language) timestamp st in
  (response_of r (filename upload) language timestamp, st1).

(** lines 94-125, the body of [try]: what the local [temp_file_path] is
    bound to when the body is left, what is left in the buffer of the
    file object, and the outcome *)
Definition try_body (model : Whisper) (upload : UploadFile)
    (language : option string) (timestamp : bool) (temp_file : string)
    (st : state) : option string * bytes * result JSONResponse * state :=
  match file upload with
  | Raise e => (None, [], Raise e, st)
  | Return data =>
      match temp_file_write temp_file data st with
      | (Raise e, st1) => (None, [], Raise e, st1)
      | (Return unwritten, st1) =>
          let temp_file_path := temp_file in
          let '(r, st2) := run_engine model upload language timestamp temp_file_path st1 in
          (Some temp_file_path, unwritten, r, st2)
      end
  end.

(** lines 127-129, [except Exception as e] *)
Definition except_clause (r : result JSONResponse) : result JSONResponse :=
  match r with
  | Return x => Return x
  | Raise e =>
      Raise (HTTPException 500 ("Transcription failed: " +:+ py_str e))
  end.

(** lines 131-136, the [finally] block *)
Definition finally_block (temp_file_path : option string) (st : state)
  : result unit * state :=
  match temp_file_path with
  | None => (Raise (UnboundLocalError "temp_file_path"), st)
  | Some path =>
      match os_unlink path st with
      | (Return _, st') => (Return tt, st')
      | (Raise e, st') =>
          if is_OSError e then (Return tt, st') else (Raise e, st')
      end
  end.

(** lines 92-136: the [with] statement, given the created file.  An
    exception of the [finally] block replaces the outcome of
    [try]/[except]; an exception of the close at the exit of [with]
    replaces whatever was on its way out. *)
Definition with_temp_file (model : Whisper) (upload : UploadFile)
    (language : option string) (timestamp : bool) (temp_file : string)
    (st : state) : result JSONResponse * state :=
  let '(temp_file_path, unwritten, r, st1) :=
    try_body model upload language timestamp temp_file st in
  let primary := except_clause r in
  let '(leaving, st2) :=
    match finally_block temp_file_path st1 with
    | (Return _, st2) => (primary, st2)
    | (Raise e, st2) => (Raise e, st2)
    end in
  match temp_file_close temp_file unwritten st2 with
  | (Return _, st3) => (leaving, st3)
  | (Raise e, st3) => (Raise e, st3)
  end.

Definition transcribe_audio (upload : UploadFile) (language : option string)
    (timestamp : bool) (st : state) : result JSONResponse * state :=
  match whisper_model st with
  | None => (Raise (HTTPException 500 "Whisper model not loaded"), st)
  | Some model =>
      let file_ext := file_ext_of (filename upload) in
      if negb (ext_allowed file_ext) then
        (Raise (HTTPException 400 (unsupported_detail file_ext)), st)
      else
        match NamedTemporaryFile file_ext st with
        | (Raise e, st1) => (Raise e, st1)
        | (Return temp_file, st1) =>
            with_temp_file model upload language timestamp temp_file st1
        end
  end.

(** [UploadFile(filename=..., file=..., content_type=...)], line 158:
    the legacy constructor takes these keywords, the current one has no
    [content_type] and raises *)
Definition UploadFile_new (name : string) (f : result bytes) (ctype : string)
  : result UploadFile :=
  match starlette rt with
  | Starlette_legacy =>
      Return {| filename := name; file := f; content_type := ctype |}
  | Starlette_current =>
      Raise (TypeError (UnexpectedKeyword "UploadFile.__init__" "content_type"))
  end.

(** the entries [transcribe_batch] appends *)
Definition success_entry (name : string) (r : JSONResponse) : pyval :=
  PDict [("filename", PStr name); ("status", PStr "success");
         ("result", PStr (body r))].

Definition error_entry (name : string) (e : exn) : pyval :=
  PDict [("filename", PStr name); ("status", PStr "error");
         ("error", PStr (py_str e))].

(** lines 156-182, one turn of the loop *)
Definition batch_item (upload : UploadFile) (language : option string)
    (st : state) : pyval * state :=
  match UploadFile_new (filename upload) (file upload) (content_type upload) with
  | Raise e => (error_entry (filename upload) e, st)
  | Return single_file =>
      match transcribe_audio single_file language false st with
      | (Return r, st') => (success_entry (filename upload) r, st')
      | (Raise e, st') => (error_entry (filename upload) e, st')
      end
  end.

(** lines 155-182, the loop over [files] with its accumulator *)
Fixpoint batch_loop (files : list UploadFile) (language : option string)
    (results : list pyval) (st : state) : list pyval * state :=
  match files with
  | [] => (results, st)
  | upload :: rest =>
      let '(entry, st') := batch_item upload language st in
      batch_loop rest language (results ++ [entry]) st'
  end.

Definition transcribe_batch (files : list UploadFile) (language : option string)
    (st : state) : result JSONResponse * state :=
  let '(results, st') := batch_loop files language [] st in
  (Return (JSONResponse_new (PDict [("results", PList results)])), st').

(** The state in which the engine runs in a call whose [write] of
    [data] to its staging file [path] returned: the file holds what has
    reached the disk. *)
Definition staged_state (st : state) (path : string) (data : bytes)
    (rest : list string) : state :=
  set_fs (insert path (on_disk data)) (set_fs (insert path []) (set_tmp_names rest st)).

End Service.

(** [response[k]] on the content of a response, [None] for a missing key *)
Definition response_get (r : JSONResponse) (k : string) : option pyval :=
  match content r with
  | PDict d => Py.dict_get d k
  | _ => None
  end.

(** the runtime [rt] with another behaviour of [os.unlink] *)
Definition with_unlink_fault (f : string -> option string) (rt : Runtime) : Runtime :=
  {| starlette := starlette rt; exn_str := exn_str rt; json_dumps := json_dumps rt;
     set_iter := set_iter rt; buffer_size := buffer_size rt;
     write_fault := write_fault rt; unlink_fault := f |}.

(** ** Concrete scenarios *)

Module Scenario.

(** [str(e)] as CPython 3.11 and later print the exceptions of the
    interpreter.  [HTTPException] is printed the way the versions of
    Starlette that define its [__str__] do; these have the current
    interface, with which no [HTTPException] of the handlers reaches
    [str], and [py_str] takes over for the legacy interface. *)
Definition str (e : exn) : string :=
  match e with
  | HTTPException code d =>
      NilEmpty.string_of_int (Z.to_int code) +:+ ": " +:+ d
  | KeyError k => PyStr.repr k
  | TypeError (NotSubscriptable t) => PyStr.repr t +:+ " object is not subscriptable"
  | TypeError (StringIndex t) => "string indices must be integers, not " +:+ PyStr.repr t
  | TypeError (ListIndex t) => "list indices must be integers or slices, not " +:+ t
  | TypeError (NotIterable t) => PyStr.repr t +:+ " object is not iterable"
  | TypeError (UnexpectedKeyword f k) =>
      f +:+ "() got an unexpected keyword argument " +:+ PyStr.repr k
  | AttributeError t a =>
      PyStr.repr t +:+ " object has no attribute " +:+ PyStr.repr a
  | UnboundLocalError n =>
      "cannot access local variable " +:+ PyStr.repr n
        +:+ " where it is not associated with a value"
  | OSError m | ValueError m | RuntimeError m => m
  end.

(** a runtime without faults, with the legacy interface of Starlette
    and a buffer of 8192 bytes; the renderer is a stand-in *)
Definition rt : Runtime :=
  {| starlette := Starlette_legacy;
     exn_str := str; json_dumps := fun _ => "{...}";
     set_iter := fun l => l; buffer_size := Z.to_nat 8192;
     write_fault := fun _ _ => None; unlink_fault := fun _ => None |}.

(** the same runtime with the current interface of Starlette *)
Definition rt_current : Runtime :=
  {| starlette := Starlette_current;
     exn_str := str; json_dumps := fun _ => "{...}";
     set_iter := fun l => l; buffer_size := Z.to_nat 8192;
     write_fault := fun _ _ => None; unlink_fault := fun _ => None |}.

(** the same runtime when deleting files is refused *)
Definition rt_locked : Runtime :=
  with_unlink_fault (fun _ => Some "[Errno 13] Permission denied") rt.

(** the same runtime when the disk is full *)
Definition rt_full : Runtime :=
  {| starlette := Starlette_legacy;
     exn_str := str; json_dumps := fun _ => "{...}";
     set_iter := fun l => l; buffer_size := Z.to_nat 8192;
     write_fault := fun _ _ => Some "[Errno 28] No space left on device";
     unlink_fault := fun _ => None |}.

Definition segment0 : pyval :=
  PDict [("id", PInt 0); ("start", PFloat 0 0); ("end", PFloat 3 (-1));
         ("text", PStr " hi there")].

(** an engine that hears the same words in every file *)
Definition engine : Whisper :=
  {| transcribe := fun _ _ _ _ =>
       Return [("text", PStr " hi there "); ("segments", PList [segment0]);
               ("language", PStr "en")] |}.

(** an engine that cannot decode anything *)
Definition broken_engine : Whisper :=
  {| transcribe := fun _ _ _ _ => Raise (RuntimeError "Failed to load audio") |}.

(** an engine that answers with the hint and the flag it was given *)
Definition telltale_engine : Whisper :=
  {| transcribe := fun _ _ language word_timestamps =>
       Return [("text", PStr (match language with
                              | Some l => l
                              | None => "(no hint)"
                              end));
               ("duration", PBool word_timestamps)] |}.

Definition ready : state :=
  {| whisper_model := Some engine; fs := ∅;
     tmp_names := ["k3x9q2ab"; "p0w7zz1c"]; engine_log := [] |}.

(** a process whose start-up has not run *)
Definition not_loaded : state :=
  {| whisper_model := None; fs := ∅;
     tmp_names := ["k3x9q2ab"; "p0w7zz1c"]; engine_log := [] |}.

Definition audio : bytes := [Byte.x52; Byte.x49; Byte.x46; Byte.x46].

(** 9000 bytes, more than the buffer takes *)
Definition long_audio : bytes := repeat Byte.x00 (Z.to_nat 9000).

Definition upload (name : string) : UploadFile :=
  {| filename := name; file := Return audio; content_type := "audio/wav" |}.

Definition long_upload (name : string) : UploadFile :=
  {| filename := name; file := Return long_audio; content_type := "audio/wav" |}.

(** the request of [test_transcribe_invalid_file_type] (test_stt.py,
    lines 42-56) *)
Definition test_txt : UploadFile :=
  {| filename := "test.txt";
     file := Return (list_byte_of_string "not an audio file");
     content_type := "text/plain" |}.

(** the response to an upload called [name], given [engine] *)
Definition transcript (name : string) (with_segments : bool) : JSONResponse :=
  JSONResponse_new rt
    (PDict ([("text", PStr "hi there"); ("language", PStr "en");
             ("duration", PInt 0); ("filename", PStr name)]
            ++ if with_segments
               then [("segments",
                      PList [PDict [("start", PFloat 0 0); ("end", PFloat 3 (-1));
                                    ("text", PStr " hi there")]])]
               else [])).

(** the staging file of the first call made in [ready] for a [.wav] *)
Definition staging : string := "/tmp/tmpk3x9q2ab.wav".

(** an upload whose spooled file can no longer be read *)
Definition unreadable (name : string) : UploadFile :=
  {| filename := name; file := Raise (ValueError "I/O operation on closed file");
     content_type := "audio/wav" |}.

End Scenario.

(** ** Start-up and the metadata endpoints *)

Definition set_whisper_model (m : option Whisper) (st : state) : state :=
  {| whisper_model := m; fs := fs st;
     tmp_names := tmp_names st; engine_log := engine_log st |}.

(** lines 39-49.  [environ] is [os.environ] and [load_model] is
    [whisper.load_model]; the [except] clause logs and raises the same
    exception again, the global keeping the value it had. *)
Definition load_whisper_model (environ : gmap string string)
    (load_model : string -> result Whisper) (st : state) : result unit * state :=
  let model_size := default "medium" (environ !! "WHISPER_MODEL_SIZE") in
  match load_model model_size with
  | Return model => (Return tt, set_whisper_model (Some model) st)
  | Raise e => (Raise e, st)
  end.

(** lines 51-54 *)
Definition startup_event (environ : gmap string string)
    (load_model : string -> result Whisper) (st : state) : result unit * state :=
  load_whisper_model environ load_model st.

(** lines 56-59 *)
Definition health_check (st : state) : pyval :=
  PDict [("status", PStr "healthy"); ("service", PStr "stt");
         ("model_loaded",
          PBool (match whisper_model st with Some _ => true | None => false end))].

(** lines 186-196 *)
Definition supported_languages : pyval :=
  PDict [("supported_languages",
          PList [PDict [("code", PStr "si"); ("name", PStr "Sinhala")];
                 PDict [("code", PStr "en"); ("name", PStr "English")];
                 PDict [("code", PStr "auto"); ("name", PStr "Auto-detect")]]);
         ("default", PStr "si")].

(** [[lang["code"] for lang in data["supported_languages"]]], the way
    [test_supported_languages] reads the catalogue (test_stt.py, line 38) *)
Definition language_codes (data : pyval) : result (list pyval) :=
  langs <- Py.getitem data "supported_languages" ;;
  items <- Py.iter langs ;;
  comprehension (fun lang => Py.getitem lang "code") items.

(** [c in s] for a character *)
Fixpoint has_char (c : ascii) (s : string) : bool :=
  match s with
  | EmptyString => false
  | String a r => Ascii.eqb a c || has_char c r
  end.

(** a runtime in which neither writing nor deleting a file fails *)
Definition fault_free (rt : Runtime) : Prop :=
  (forall path data, write_fault rt path data = None)
  /\ (forall path, unlink_fault rt path = None).

(** an upload that can be read *)
Definition readable (upload : UploadFile) : Prop :=
  exists data, file upload = Return data.

Module Deployment.

(** a loader that knows the sizes "base" and "medium" *)
Definition load_model (size : string) : result Whisper :=
  if String.eqb size "medium" || String.eqb size "base"
  then Return Scenario.engine
  else Raise (RuntimeError ("Model " +:+ size +:+ " not found")).

Definition unset : gmap string string := ∅.

Definition misconfigured : gmap string string :=
  {[ "WHISPER_MODEL_SIZE" := "gigantic" ]}.

(** the engine result without its [text] *)
Definition mute_engine : Whisper :=
  {| transcribe := fun _ _ _ _ => Return [("language", PStr "en")] |}.

Definition ready_with (model : Whisper) : state :=
  {| whisper_model := Some model; fs := ∅;
     tmp_names := ["k3x9q2ab"; "p0w7zz1c"]; engine_log := [] |}.

(** an engine that reports neither language nor duration *)
Definition terse_engine : Whisper :=
  {| transcribe := fun _ _ _ _ => Return [("text", PStr "ayubowan")] |}.

(** an engine whose [text] is a number *)
Definition numeric_engine : Whisper :=
  {| transcribe := fun _ _ _ _ => Return [("text", PInt 5)] |}.

(** an engine that reports the given value as its segments *)
Definition segments_engine (segs : pyval) : Whisper :=
  {| transcribe := fun _ _ _ _ =>
       Return [("text", PStr "hi"); ("segments", segs)] |}.

(** an engine that reports as duration the number of bytes it finds in
    the file it is given *)
Definition measuring_engine : Whisper :=
  {| transcribe := fun files audio _ _ =>
       match files !! audio with
       | Some data =>
           Return [("text", PStr "ok"); ("duration", PInt (Z.of_nat (length data)))]
       | None => Raise (RuntimeError "No such file or directory")
       end |}.

(** a state with a file of somebody else in the temporary directory *)
Definition occupied : state :=
  {| whisper_model := Some Scenario.engine;
     fs := {[ "/tmp/tmpk3x9q2ab.wav" := [Byte.x00] ]};
     tmp_names := ["k3x9q2ab"; "p0w7zz1c"]; engine_log := [] |}.

End Deployment.

(** * The runtime functions on examples *)

Example splitext_wav : PosixPath.splitext "clip.WAV" = ("clip", ".WAV").
Proof. reflexivity. Qed.
Example splitext_dotfile : PosixPath.splitext "dir.d/.bashrc" = ("dir.d/.bashrc", EmptyString).
Proof. reflexivity. Qed.
Example splitext_two : PosixPath.splitext "a/b.tar.gz" = ("a/b.tar", ".gz").
Proof. reflexivity. Qed.
Example splitext_none : PosixPath.splitext "noext" = ("noext", EmptyString).
Proof. reflexivity. Qed.
Example strip_ex : PyStr.strip "  hello world
" = "hello world".
Proof. reflexivity. Qed.
Example lower_ex : PyStr.lower ".WaV" = ".wav".
Proof. reflexivity. Qed.
Example upper_case_extension_allowed :
  file_ext_of "Interview.M4A" = ".m4a" /\ ext_allowed (file_ext_of "Interview.M4A") = true.
Proof. split; reflexivity. Qed.
Example no_extension_refused :
  file_ext_of ".wav" = EmptyString /\ ext_allowed (file_ext_of ".wav") = false.
Proof. split; reflexivity. Qed.

(** * Facts about the runtime functions *)

Module PyStrFacts.
Import PyStr.

Lemma app_cons (x : ascii) (a b : string) : String x a +:+ b = String x (a +:+ b).
Proof. reflexivity. Qed.

Lemma app_nil_r (s : string) : s +:+ EmptyString = s.
Proof. induction s as [|c s IH]; [reflexivity|]. by rewrite app_cons, IH. Qed.

Lemma app_assoc (a b c : string) : (a +:+ b) +:+ c = a +:+ b +:+ c.
Proof. induction a as [|x a IH]; [reflexivity|]. by rewrite !app_cons, IH. Qed.

Lemma all_space_app (a b : string) :
  all_space (a +:+ b) = all_space a && all_space b.
Proof.
  induction a as [|x a IH]; [reflexivity|].
  rewrite app_cons. simpl. rewrite IH. by rewrite andb_assoc.
Qed.

Lemma lstrip_first (s : string) (c : ascii) :
  first (lstrip s) = Some c -> isspace c = false.
Proof.
  induction s as [|x s IH]; simpl; [discriminate|].
  destruct (isspace x) eqn:Hx; [exact IH|].
  simpl. intros [= <-]. exact Hx.
Qed.

Lemma lstrip_split (s : string) :
  exists pre, s = pre +:+ lstrip s /\ all_space pre = true.
Proof.
  induction s as [|x s [pre [Hs Hpre]]]; simpl.
  - by exists EmptyString.
  - destruct (isspace x) eqn:Hx.
    + exists (String x pre). rewrite app_cons, <- Hs. simpl. by rewrite Hx.
    + by exists EmptyString.
Qed.

Lemma rstrip_last (s : string) (c : ascii) :
  last (rstrip s) = Some c -> isspace c = false.
Proof.
  induction s as [|x s IH]; simpl; [discriminate|].
  destruct (rstrip s) as [|y r] eqn:Hr.
  - destruct (isspace x) eqn:Hx; simpl; [discriminate|].
    intros [= <-]. exact Hx.
  - exact IH.
Qed.

Lemma rstrip_first (s : string) (c : ascii) :
  first (rstrip s) = Some c -> first s = Some c.
Proof.
  destruct s as [|x s]; simpl; [discriminate|].
  destruct (rstrip s); [destruct (isspace x)|]; simpl; congruence.
Qed.

Lemma rstrip_split (s : string) :
  exists post, s = rstrip s +:+ post /\ all_space post = true.
Proof.
  induction s as [|x s [post [Hs Hpost]]]; simpl.
  - by exists EmptyString.
  - destruct (rstrip s) as [|y r] eqn:Hr.
    + destruct (isspace x) eqn:Hx.
      * exists (String x s). split; [reflexivity|].
        simpl. rewrite Hx. simpl. rewrite Hs. exact Hpost.
      * exists s. split; [reflexivity|]. rewrite Hs. exact Hpost.
    + exists post. split; [|exact Hpost].
      rewrite app_cons. by rewrite <- Hs.
Qed.

(** [strip] leaves no white space at either end ... *)
Lemma strip_first (s : string) (c : ascii) :
  first (strip s) = Some c -> isspace c = false.
Proof. intros H. apply rstrip_first in H. by apply lstrip_first in H. Qed.

Lemma strip_last (s : string) (c : ascii) :
  last (strip s) = Some c -> isspace c = false.
Proof. apply rstrip_last. Qed.

(** ... and removes white space only, at the two ends only. *)
Lemma strip_split (s : string) :
  exists pre post,
    s = pre +:+ strip s +:+ post /\ all_space pre = true /\ all_space post = true.
Proof.
  destruct (lstrip_split s) as [pre [Hs Hpre]].
  destruct (rstrip_split (lstrip s)) as [post [Hl Hpost]].
  exists pre, post. repeat split; [|assumption..].
  unfold strip. by rewrite <- Hl.
Qed.

Lemma occurs_refl (x : string) : occurs x x.
Proof. exists EmptyString, EmptyString. by rewrite app_nil_r. Qed.

Lemma occurs_app_l (x a b : string) : occurs x a -> occurs x (a +:+ b).
Proof.
  intros [pre [post ->]]. exists pre, (post +:+ b).
  by rewrite !app_assoc.
Qed.

Lemma occurs_app_r (x a b : string) : occurs x b -> occurs x (a +:+ b).
Proof.
  intros [pre [post ->]]. exists (a +:+ pre), post.
  by rewrite !app_assoc.
Qed.

Lemma occurs_join (sep x : string) (l : list string) :
  In x l -> occurs x (join sep l).
Proof.
  induction l as [|y l IH]; [intros []|].
  intros [-> | Hin].
  - destruct l; [apply occurs_refl|].
    apply occurs_app_l, occurs_refl.
  - destruct l as [|z l]; [destruct Hin|].
    change (join sep (y :: z :: l)) with (y +:+ sep +:+ join sep (z :: l)).
    by apply occurs_app_r, occurs_app_r, IH.
Qed.

Lemma occurs_repr_set (x : string) (l : list string) :
  In x l -> occurs (repr x) (repr_set l).
Proof.
  intros Hin. unfold repr_set.
  apply occurs_app_r, occurs_app_l, occurs_join.
  by apply in_map.
Qed.

End PyStrFacts.


Section ServiceFacts.

Context (rt : Runtime).

Lemma rewrap_upload (upload : UploadFile) :
  {| filename := filename upload; file := file upload;
     content_type := content_type upload |} = upload.
Proof. by destruct upload. Qed.

(** The name [mkstemp] settles on is free. *)
Lemma mkstemp_fresh suffix (files : gmap string bytes) names path rest :
  mkstemp suffix files names = (Return path, rest) -> files !! path = None.
Proof.
  revert rest. induction names as [|n names IH]; intros rest; simpl; [discriminate|].
  destruct (files !! ("/tmp/tmp" +:+ n +:+ suffix)) eqn:Hn; [apply IH|].
  by intros [= <- _].
Qed.

(** [mkstemp] raises nothing but [OSError]. *)
Lemma mkstemp_Raise suffix (files : gmap string bytes) names e rest :
  mkstemp suffix files names = (Raise e, rest) -> is_OSError e = true.
Proof.
  revert rest. induction names as [|n names IH]; intros rest; simpl.
  - by intros [= <- _].
  - destruct (files !! ("/tmp/tmp" +:+ n +:+ suffix)); [apply IH | discriminate].
Qed.

Lemma ext_allowed_spec (file_ext : string) :
  ext_allowed file_ext = true <-> In file_ext allowed_extensions.
Proof.
  unfold ext_allowed. rewrite existsb_exists. split.
  - intros [x [Hin Heq]]. apply String.eqb_eq in Heq. by subst.
  - intros Hin. exists file_ext. split; [done|]. apply String.eqb_refl.
Qed.

Lemma set_fs_id (f : gmap string bytes -> gmap string bytes) (st : state) :
  f (fs st) = fs st -> set_fs f st = st.
Proof. destruct st. unfold set_fs. simpl. by intros ->. Qed.

(** A [write] that returns: what it leaves in the buffer and on disk. *)
Lemma temp_file_write_ok path data st :
  fs st !! path = Some [] ->
  data = [] \/ write_fault rt path data = None ->
  temp_file_write rt path data st
  = (Return (pending rt data), set_fs (insert path (on_disk rt data)) st).
Proof.
  intros Hempty Hok. unfold temp_file_write, pending, on_disk.
  destruct (buffered rt data) eqn:Hb.
  - f_equal. symmetry. apply set_fs_id. by apply insert_id.
  - destruct Hok as [-> | ->]; [discriminate Hb | reflexivity].
Qed.

(** The [with] statement when the write returns and the close at its
    exit does not fail. *)
Lemma with_temp_file_staged model upload language timestamp path created data :
  fs created !! path = Some [] ->
  file upload = Return data ->
  data = [] \/ write_fault rt path data = None ->
  let st1 := set_fs (insert path (on_disk rt data)) created in
  let st2 := log_event (EngineCall path (effective_language language) timestamp) st1 in
  with_temp_file rt model upload language timestamp path created =
    (except_clause rt
       (response_of rt
          (transcribe model (fs st1) path (effective_language language) timestamp)
          (filename upload) language timestamp),
     match unlink_fault rt path with
     | Some _ => set_fs (insert path data) st2
     | None => set_fs (delete path) st2
     end).
Proof.
  intros Hempty Hread Hok st1 st2.
  unfold with_temp_file, try_body. rewrite Hread.
  rewrite (temp_file_write_ok _ _ _ Hempty Hok).
  unfold run_engine, call_engine. fold st1. fold st2.
  unfold finally_block, os_unlink.
  assert (Hfile : fs st2 !! path = Some (on_disk rt data))
    by (simpl; apply lookup_insert_eq).
  destruct (unlink_fault rt path) as [msg|].
  - cbn [is_OSError]. unfold temp_file_close, pending, on_disk in *.
    destruct (buffered rt data) eqn:Hb.
    + destruct data as [|b data].
      * f_equal. symmetry. apply set_fs_id. by apply insert_id.
      * destruct Hok as [Hnil | ->]; [discriminate Hnil|]. by rewrite Hfile.
    + f_equal. symmetry. apply set_fs_id. by apply insert_id.
  - rewrite Hfile.
    unfold temp_file_close, pending.
    destruct (buffered rt data); [|reflexivity].
    destruct data as [|b data]; [reflexivity|].
    destruct Hok as [Hnil | ->]; [discriminate Hnil|].
    assert (Hgone : fs (set_fs (delete path) st2) !! path = None)
      by (simpl; apply lookup_delete_eq).
    by rewrite Hgone.
Qed.

(** The [with] statement when the data stays in the buffer and the
    close at the exit cannot write it. *)
Lemma with_temp_file_flush_fails model upload language timestamp path created data msg :
  fs created !! path = Some [] ->
  file upload = Return data ->
  buffered rt data = true -> data <> [] ->
  write_fault rt path data = Some msg ->
  let st2 := log_event (EngineCall path (effective_language language) timestamp) created in
  with_temp_file rt model upload language timestamp path created =
    (Raise (OSError msg),
     match unlink_fault rt path with
     | Some _ => st2
     | None => set_fs (delete path) st2
     end).
Proof.
  intros Hempty Hread Hb Hne Hfault st2.
  unfold with_temp_file, try_body. rewrite Hread.
  unfold temp_file_write. rewrite Hb.
  unfold run_engine, call_engine. fold st2.
  unfold finally_block, os_unlink.
  assert (Hfile : fs st2 !! path = Some []) by exact Hempty.
  destruct data as [|b data]; [done|].
  destruct (unlink_fault rt path) as [m|].
  - cbn [is_OSError]. unfold temp_file_close. by rewrite Hfault.
  - rewrite Hfile. unfold temp_file_close. by rewrite Hfault.
Qed.

(** The [with] statement when the read or the write raises. *)
Lemma with_temp_file_unbound model upload language timestamp path created :
  (forall data, file upload = Return data ->
     buffered rt data = false /\ write_fault rt path data <> None) ->
  with_temp_file rt model upload language timestamp path created =
    (Raise (UnboundLocalError "temp_file_path"), created).
Proof.
  intros Hfail. unfold with_temp_file, try_body.
  destruct (file upload) as [data|e]; [|reflexivity].
  destruct (Hfail data eq_refl) as [Hb Hfault].
  unfold temp_file_write. rewrite Hb.
  by destruct (write_fault rt path data).
Qed.

(** A call that wrote its staging file and whose file object could be
    closed: what it returns and the state it leaves, by whether
    [os.unlink] fails. *)
Lemma transcribe_audio_staged upload language timestamp st model path rest data :
  whisper_model st = Some model ->
  ext_allowed (file_ext_of (filename upload)) = true ->
  mkstemp (file_ext_of (filename upload)) (fs st) (tmp_names st) = (Return path, rest) ->
  file upload = Return data ->
  data = [] \/ write_fault rt path data = None ->
  let st1 := staged_state rt st path data rest in
  let st2 := log_event (EngineCall path (effective_language language) timestamp) st1 in
  transcribe_audio rt upload language timestamp st =
    (except_clause rt
       (response_of rt
          (transcribe model (fs st1) path (effective_language language) timestamp)
          (filename upload) language timestamp),
     match unlink_fault rt path with
     | Some _ => set_fs (insert path data) st2
     | None => set_fs (delete path) st2
     end).
Proof.
  intros Hmodel Hext Hmk Hread Hok st1 st2. subst st1 st2.
  unfold transcribe_audio. rewrite Hmodel, Hext. cbn [negb].
  unfold NamedTemporaryFile. rewrite Hmk. unfold staged_state.
  apply (with_temp_file_staged model upload language timestamp path _ data);
    try done.
  simpl. apply lookup_insert_eq.
Qed.

(** The five ways through [transcribe_audio] that raise before or in
    place of the engine's answer, and the one that gives it. *)
Lemma transcribe_audio_paths upload language timestamp st :
  let file_ext := file_ext_of (filename upload) in
  let call := transcribe_audio rt upload language timestamp st in
  (whisper_model st = None
   /\ call = (Raise (HTTPException 500 "Whisper model not loaded"), st))
  \/ (exists model,
        whisper_model st = Some model /\ ext_allowed file_ext = false
        /\ call = (Raise (HTTPException 400 (unsupported_detail rt file_ext)), st))
  \/ (exists model e rest,
        whisper_model st = Some model /\ ext_allowed file_ext = true
        /\ mkstemp file_ext (fs st) (tmp_names st) = (Raise e, rest)
        /\ call = (Raise e, set_tmp_names rest st))
  \/ (exists model path rest,
        whisper_model st = Some model /\ ext_allowed file_ext = true
        /\ mkstemp file_ext (fs st) (tmp_names st) = (Return path, rest)
        /\ (forall data, file upload = Return data ->
              buffered rt data = false /\ write_fault rt path data <> None)
        /\ call = (Raise (UnboundLocalError "temp_file_path"),
                   set_fs (insert path []) (set_tmp_names rest st)))
  \/ (exists model path rest data msg,
        whisper_model st = Some model /\ ext_allowed file_ext = true
        /\ mkstemp file_ext (fs st) (tmp_names st) = (Return path, rest)
        /\ file upload = Return data
        /\ buffered rt data = true /\ data <> []
        /\ write_fault rt path data = Some msg
        /\ call =
             (Raise (OSError msg),
              let st2 :=
                log_event (EngineCall path (effective_language language) timestamp)
                  (set_fs (insert path []) (set_tmp_names rest st)) in
              match unlink_fault rt path with
              | Some _ => st2
              | None => set_fs (delete path) st2
              end))
  \/ (exists model path rest data,
        whisper_model st = Some model /\ ext_allowed file_ext = true
        /\ mkstemp file_ext (fs st) (tmp_names st) = (Return path, rest)
        /\ file upload = Return data
        /\ (data = [] \/ write_fault rt path data = None)
        /\ call =
             (except_clause rt
                (response_of rt
                   (transcribe model (fs (staged_state rt st path data rest)) path
                      (effective_language language) timestamp)
                   (filename upload) language timestamp),
              let st2 :=
                log_event (EngineCall path (effective_language language) timestamp)
                  (staged_state rt st path data rest) in
              match unlink_fault rt path with
              | Some _ => set_fs (insert path data) st2
              | None => set_fs (delete path) st2
              end)).
Proof.
  intros file_ext call. subst file_ext call.
  destruct (whisper_model st) as [model|] eqn:Hmodel;
    [|left; split; [reflexivity|]; unfold transcribe_audio; by rewrite Hmodel].
  right.
  destruct (ext_allowed (file_ext_of (filename upload))) eqn:Hext;
    [|left; exists model; repeat split;
      unfold transcribe_audio; by rewrite Hmodel, Hext].
  right.
  destruct (mkstemp (file_ext_of (filename upload)) (fs st) (tmp_names st))
    as [[path|e] rest] eqn:Hmk;
    [|left; exists model, e, rest; repeat split;
      unfold transcribe_audio, NamedTemporaryFile; by rewrite Hmodel, Hext, Hmk].
  right.
  assert (Hcall : transcribe_audio rt upload language timestamp st
                  = with_temp_file rt model upload language timestamp path
                      (set_fs (insert path []) (set_tmp_names rest st))).
  { unfold transcribe_audio, NamedTemporaryFile. by rewrite Hmodel, Hext, Hmk. }
  assert (Hempty : fs (set_fs (insert path []) (set_tmp_names rest st)) !! path
                   = Some []) by (simpl; apply lookup_insert_eq).
  destruct (file upload) as [data|e] eqn:Hread.
  - destruct (write_fault rt path data) as [msg|] eqn:Hfault.
    + destruct (buffered rt data) eqn:Hb.
      * destruct data as [|b data].
        { right. right. exists model, path, rest, []. repeat split; try done; [by left|].
          rewrite Hcall.
          apply (with_temp_file_staged model upload language timestamp path _ []);
            try done. by left. }
        { right. left. exists model, path, rest, (b :: data), msg.
          repeat split; try done.
          rewrite Hcall.
          by apply (with_temp_file_flush_fails model upload language timestamp path _
                      (b :: data) msg). }
      * left. exists model, path, rest.
        assert (Hfail : forall data', Return data = Return data' ->
                  buffered rt data' = false /\ write_fault rt path data' <> None).
        { intros data' [= <-]. split; [done | by rewrite Hfault]. }
        split; [done|]. split; [done|]. split; [done|]. split; [exact Hfail|].
        rewrite Hcall. apply with_temp_file_unbound. by rewrite Hread.
    + right. right. exists model, path, rest, data. repeat split; try done; [by right|].
      rewrite Hcall.
      apply (with_temp_file_staged model upload language timestamp path _ data);
        try done. by right.
  - left. exists model, path, rest.
    assert (Hfail : forall data, Raise e = Return data ->
              buffered rt data = false /\ write_fault rt path data <> None)
      by discriminate.
    split; [done|]. split; [done|]. split; [done|]. split; [exact Hfail|].
    rewrite Hcall. apply with_temp_file_unbound. by rewrite Hread.
Qed.

(** A call that returns normally wrote its staging file, closed it,
    and the engine and the construction of the response succeeded. *)
Lemma transcribe_audio_Return upload language timestamp st r st' :
  transcribe_audio rt upload language timestamp st = (Return r, st') ->
  exists model path rest data res response,
    whisper_model st = Some model /\
    ext_allowed (file_ext_of (filename upload)) = true /\
    mkstemp (file_ext_of (filename upload)) (fs st) (tmp_names st) = (Return path, rest) /\
    file upload = Return data /\
    (data = [] \/ write_fault rt path data = None) /\
    transcribe model (fs (staged_state rt st path data rest)) path
      (effective_language language) timestamp = Return res /\
    build_response res (filename upload) language timestamp = Return response /\
    r = JSONResponse_new rt response.
Proof.
  intros H.
  destruct (transcribe_audio_paths upload language timestamp st)
    as [[_ Hc] | [(model & _ & _ & Hc) | [(model & e' & rest & _ & _ & _ & Hc)
       | [(model & path & rest & _ & _ & _ & _ & Hc)
       | [(model & path & rest & data & msg & _ & _ & _ & _ & _ & _ & _ & Hc)
       | (model & path & rest & data & Hmodel & Hext & Hmk & Hread & Hok & Hc)]]]]];
    rewrite Hc in H; try discriminate H.
  injection H as Hprim _. unfold response_of in Hprim.
  destruct (transcribe model _ path _ timestamp) as [res|e] eqn:Heng; [|discriminate].
  simpl in Hprim.
  destruct (build_response res _ language timestamp) as [response|e] eqn:Hresp;
    [|discriminate].
  simpl in Hprim. injection Hprim as <-.
  exists model, path, rest, data, res, response. by repeat split.
Qed.

End ServiceFacts.
Section ResponseFacts.

Lemma comprehension_Forall2 {A B} (k : A -> result B) (l : list A) (ys : list B) :
  comprehension k l = Return ys -> Forall2 (fun x y => k x = Return y) l ys.
Proof.
  revert ys. induction l as [|x l IH]; intros ys; simpl.
  - intros [= <-]. constructor.
  - destruct (k x) as [y|e] eqn:Hx; [|discriminate]. simpl.
    destruct (comprehension k l) as [ys'|e]; [|discriminate]. simpl.
    intros [= <-]. constructor; [exact Hx | by apply IH].
Qed.

Lemma segment_entry_Return (segment entry : pyval) :
  segment_entry segment = Return entry ->
  exists s e t,
    Py.getitem segment "start" = Return s /\
    Py.getitem segment "end" = Return e /\
    Py.getitem segment "text" = Return t /\
    entry = PDict [("start", s); ("end", e); ("text", t)].
Proof.
  unfold segment_entry.
  destruct (Py.getitem segment "start") as [s|?]; [|discriminate].
  destruct (Py.getitem segment "end") as [e|?]; [|discriminate].
  destruct (Py.getitem segment "text") as [t|?]; [|discriminate].
  simpl. intros [= <-]. by exists s, e, t.
Qed.

(** The two shapes of a response that was built. *)
Lemma build_response_Return res name language timestamp response :
  build_response res name language timestamp = Return response ->
  exists t,
    Py.dict_get res "text" = Some (PStr t) /\
    let base :=
      [("text", PStr (PyStr.strip t));
       ("language", Py.dict_get_default res "language" (Py.of_option language));
       ("duration", Py.dict_get_default res "duration" (PInt 0));
       ("filename", PStr name)] in
    (timestamp && Py.dict_has res "segments" = false /\ response = PDict base)
    \/ (timestamp && Py.dict_has res "segments" = true /\
        exists segs items entries,
          Py.dict_get res "segments" = Some segs /\
          Py.iter segs = Return items /\
          comprehension segment_entry items = Return entries /\
          response = PDict (base ++ [("segments", PList entries)])).
Proof.
  unfold build_response, Py.dict_getitem.
  destruct (Py.dict_get res "text") as [raw|] eqn:Htext; [|discriminate].
  simpl. destruct raw as [| | | |t| |]; try discriminate.
  simpl. intros H. exists t. split; [reflexivity|].
  destruct (timestamp && Py.dict_has res "segments") eqn:Hseg.
  - right. split; [reflexivity|].
    destruct (Py.dict_get res "segments") as [segs|] eqn:Hsegs; [|discriminate].
    simpl in H.
    destruct (Py.iter segs) as [items|?] eqn:Hiter; [|discriminate].
    simpl in H.
    destruct (comprehension segment_entry items) as [entries|?] eqn:Hc; [|discriminate].
    simpl in H. injection H as <-.
    by exists segs, items, entries.
  - left. split; [reflexivity|]. by injection H as <-.
Qed.

End ResponseFacts.

(** * The single-item handler *)

Section SingleItem.

Context (rt : Runtime).

(** C9. While the engine model is not loaded, every call to
    [transcribe_audio] raises the 500 error "Whisper model not loaded"
    whatever the file name is, and leaves the state untouched: the
    check of the model comes before the check of the extension, so a
    disallowed extension is answered by the 500 error too. *)
Theorem engine_check_precedes_validation upload language timestamp st :
  whisper_model st = None ->
  transcribe_audio rt upload language timestamp st =
    (Raise (HTTPException 500 "Whisper model not loaded"), st).
Proof. intros H. unfold transcribe_audio. by rewrite H. Qed.

(** What the check of the extension does once the model is loaded: a
    file name whose lower-cased extension is not one of the six allowed
    ones is rejected with the 400 error whose detail names that
    extension and lists every allowed extension; the state is returned
    unchanged, so no staging file was created, no name was drawn and the
    engine was not called. *)
Lemma unsupported_extension_rejected upload language timestamp st model :
  Permutation (set_iter rt allowed_extensions) allowed_extensions ->
  whisper_model st = Some model ->
  ext_allowed (file_ext_of (filename upload)) = false ->
  let file_ext := file_ext_of (filename upload) in
  transcribe_audio rt upload language timestamp st =
    (Raise (HTTPException 400 (unsupported_detail rt file_ext)), st)
  /\ PyStr.occurs file_ext (unsupported_detail rt file_ext)
  /\ (forall e, In e allowed_extensions ->
        PyStr.occurs (PyStr.repr e) (unsupported_detail rt file_ext)).
Proof.
  intros Hperm Hmodel Hext file_ext. subst file_ext. split; [|split].
  - unfold transcribe_audio. by rewrite Hmodel, Hext.
  - unfold unsupported_detail.
    apply PyStrFacts.occurs_app_r, PyStrFacts.occurs_app_l, PyStrFacts.occurs_refl.
  - intros e He. unfold unsupported_detail.
    do 3 apply PyStrFacts.occurs_app_r.
    apply PyStrFacts.occurs_repr_set.
    eapply Permutation_in; [symmetry; exact Hperm | exact He].
Qed.

(** C1 (as amended). In a call that wrote its staging file, and in
    which [os.unlink] does not fail, the staging file, whose name was
    not in use before the call, does not exist when the call is over,
    whether the call returns a transcription or raises; the filesystem
    is then exactly the one the call found. *)
Theorem staging_file_released upload language timestamp st model path rest data :
  whisper_model st = Some model ->
  ext_allowed (file_ext_of (filename upload)) = true ->
  mkstemp (file_ext_of (filename upload)) (fs st) (tmp_names st) = (Return path, rest) ->
  file upload = Return data ->
  write_fault rt path data = None ->
  unlink_fault rt path = None ->
  let st' := snd (transcribe_audio rt upload language timestamp st) in
  fs st !! path = None /\ fs st' !! path = None /\ fs st' = fs st.
Proof.
  intros Hmodel Hext Hmk Hread Hwrite Hunlink.
  rewrite (transcribe_audio_staged rt _ _ _ _ _ _ _ _ Hmodel Hext Hmk Hread
             (or_intror Hwrite)).
  rewrite Hunlink. simpl.
  pose proof (mkstemp_fresh _ _ _ _ _ Hmk) as Hfresh.
  split; [exact Hfresh|]. split.
  - apply lookup_delete_eq.
  - rewrite delete_insert_eq, delete_insert_eq. by apply delete_id.
Qed.

(** What [except OSError: pass] achieves.  In a call that wrote its
    staging file and in which [os.unlink] fails, the outcome is the one
    [try]/[except] produced: the response when the engine and the
    construction of the response succeeded, the 500 error otherwise.  It
    is not the error of [os.unlink], and it is the outcome the call has
    under any other behaviour of [os.unlink]. *)
Lemma unlink_failure_swallowed upload language timestamp st model path rest data msg :
  whisper_model st = Some model ->
  ext_allowed (file_ext_of (filename upload)) = true ->
  mkstemp (file_ext_of (filename upload)) (fs st) (tmp_names st) = (Return path, rest) ->
  file upload = Return data ->
  write_fault rt path data = None ->
  unlink_fault rt path = Some msg ->
  let outcome := fst (transcribe_audio rt upload language timestamp st) in
  outcome =
    except_clause rt
      (response_of rt
         (transcribe model (fs (staged_state rt st path data rest)) path
            (effective_language language) timestamp)
         (filename upload) language timestamp)
  /\ outcome <> Raise (OSError msg)
  /\ (forall f,
        fst (transcribe_audio (with_unlink_fault f rt) upload language timestamp st)
        = outcome).
Proof.
  intros Hmodel Hext Hmk Hread Hwrite Hunlink outcome. subst outcome.
  rewrite (transcribe_audio_staged rt _ _ _ _ _ _ _ _ Hmodel Hext Hmk Hread
             (or_intror Hwrite)).
  cbn [fst]. split; [reflexivity|]. split.
  - unfold except_clause. by destruct (response_of _ _ _ _ _).
  - intros f.
    by rewrite (transcribe_audio_staged (with_unlink_fault f rt)
                  _ _ _ _ _ _ _ _ Hmodel Hext Hmk Hread (or_intror Hwrite)).
Qed.

(** What it misses: when reading the upload raises, or when the upload
    is longer than the buffer and writing it raises, [temp_file_path] is
    not bound yet, the [finally] block raises [UnboundLocalError] in
    place of the 500 error, and the file that was created stays. *)
Lemma unbound_path_when_staging_fails upload language timestamp st model path rest :
  whisper_model st = Some model ->
  ext_allowed (file_ext_of (filename upload)) = true ->
  mkstemp (file_ext_of (filename upload)) (fs st) (tmp_names st) = (Return path, rest) ->
  (forall data, file upload = Return data ->
     buffered rt data = false /\ write_fault rt path data <> None) ->
  let '(outcome, st') := transcribe_audio rt upload language timestamp st in
  outcome = Raise (UnboundLocalError "temp_file_path") /\ fs st' !! path = Some [].
Proof.
  intros Hmodel Hext Hmk Hfail.
  unfold transcribe_audio, NamedTemporaryFile. rewrite Hmodel, Hext, Hmk. cbn [negb].
  rewrite (with_temp_file_unbound rt _ _ _ _ _ _ Hfail).
  split; [reflexivity|]. simpl. apply lookup_insert_eq.
Qed.

(** C7. The hint given to the engine is the caller's value when that
    value is "si" or "en" and no hint (auto-detect) for every other
    value.  A request that wrote its staging file is answered from what
    [transcribe] returns for that hint, with the caller's flag, on the
    staging file, and that one call is what the log of engine calls
    gains; no other call of the engine is made by any request; and the
    400 rejection comes from the extension alone, never from the
    language. *)
Theorem language_hint_normalised upload language timestamp st :
  (language = Some "si" \/ language = Some "en" ->
     effective_language language = language)
  /\ (language <> Some "si" -> language <> Some "en" ->
        effective_language language = None)
  /\ (forall model path rest data,
        whisper_model st = Some model ->
        ext_allowed (file_ext_of (filename upload)) = true ->
        mkstemp (file_ext_of (filename upload)) (fs st) (tmp_names st)
          = (Return path, rest) ->
        file upload = Return data ->
        write_fault rt path data = None ->
        fst (transcribe_audio rt upload language timestamp st) =
          except_clause rt
            (response_of rt
               (transcribe model (fs (staged_state rt st path data rest)) path
                  (effective_language language) timestamp)
               (filename upload) language timestamp)
        /\ engine_log (snd (transcribe_audio rt upload language timestamp st)) =
             engine_log st ++ [EngineCall path (effective_language language) timestamp])
  /\ (let st' := snd (transcribe_audio rt upload language timestamp st) in
      engine_log st' = engine_log st
      \/ exists path,
           engine_log st' =
             engine_log st ++ [EngineCall path (effective_language language) timestamp])
  /\ (forall detail,
        fst (transcribe_audio rt upload language timestamp st)
          = Raise (HTTPException 400 detail) ->
        ext_allowed (file_ext_of (filename upload)) = false).
Proof.
  split; [|split; [|split; [|split]]].
  - by intros [-> | ->].
  - intros Hsi Hen. destruct language as [l|]; [|reflexivity]. simpl.
    destruct (String.eqb l "si") eqn:E1.
    { apply String.eqb_eq in E1. by subst. }
    destruct (String.eqb l "en") eqn:E2; [|reflexivity].
    apply String.eqb_eq in E2. by subst.
  - intros model path rest data Hmodel Hext Hmk Hread Hwrite.
    rewrite (transcribe_audio_staged rt _ _ _ _ _ _ _ _ Hmodel Hext Hmk Hread
               (or_intror Hwrite)).
    split; [reflexivity|]. cbn [snd]. by destruct (unlink_fault rt path).
  - destruct (transcribe_audio_paths rt upload language timestamp st)
      as [[_ Hc] | [(model & _ & _ & Hc) | [(model & e' & rest & _ & _ & _ & Hc)
         | [(model & path & rest & _ & _ & _ & _ & Hc)
         | [(model & path & rest & data & msg & _ & _ & _ & _ & _ & _ & _ & Hc)
         | (model & path & rest & data & _ & _ & _ & _ & _ & Hc)]]]]];
      cbv zeta; rewrite Hc; cbn [snd].
    1-4: by left.
    all: right; exists path; by destruct (unlink_fault rt path).
  - intros detail H.
    destruct (transcribe_audio_paths rt upload language timestamp st)
      as [[_ Hc] | [(model & _ & Hext & Hc) | [(model & e' & rest & _ & _ & Hmk & Hc)
         | [(model & path & rest & _ & _ & _ & _ & Hc)
         | [(model & path & rest & data & msg & _ & _ & _ & _ & _ & _ & _ & Hc)
         | (model & path & rest & data & _ & _ & _ & _ & _ & Hc)]]]]];
      rewrite Hc in H; cbn [fst] in H; try discriminate H; try exact Hext.
    + injection H as ->. apply mkstemp_Raise in Hmk. discriminate Hmk.
    + unfold except_clause in H.
      destruct (response_of _ _ _ _ _); discriminate H.
Qed.

End SingleItem.

Section Response.

Context (rt : Runtime).

(** C8. In every call that returns a transcription, the engine was run
    on the staging file as it was on disk, and the [text] of the
    response is the engine's text with the white space at its two ends
    removed, and nothing else: it neither starts nor ends with a white
    space character, and the engine's text is it between two runs of
    white space.  The [filename] of the response is the uploaded file
    name, unchanged. *)
Theorem text_trimmed_filename_echoed upload language timestamp st r st' :
  transcribe_audio rt upload language timestamp st = (Return r, st') ->
  exists model path rest data res t,
    whisper_model st = Some model
    /\ mkstemp (file_ext_of (filename upload)) (fs st) (tmp_names st) = (Return path, rest)
    /\ file upload = Return data
    /\ transcribe model (fs (staged_state rt st path data rest)) path
         (effective_language language) timestamp = Return res
    /\ Py.dict_get res "text" = Some (PStr t)
    /\ response_get r "text" = Some (PStr (PyStr.strip t))
    /\ (forall c, PyStr.first (PyStr.strip t) = Some c -> PyStr.isspace c = false)
    /\ (forall c, PyStr.last (PyStr.strip t) = Some c -> PyStr.isspace c = false)
    /\ (exists pre post,
          t = pre +:+ PyStr.strip t +:+ post
          /\ PyStr.all_space pre = true /\ PyStr.all_space post = true)
    /\ response_get r "filename" = Some (PStr (filename upload)).
Proof.
  intros H.
  destruct (transcribe_audio_Return rt _ _ _ _ _ _ H)
    as (model & path & rest & data & res & response
        & Hmodel & _ & Hmk & Hread & _ & Heng & Hresp & ->).
  destruct (build_response_Return _ _ _ _ _ Hresp) as (t & Ht & Hshape).
  exists model, path, rest, data, res, t.
  split; [exact Hmodel|]. split; [exact Hmk|]. split; [exact Hread|].
  split; [exact Heng|]. split; [exact Ht|].
  assert (Hfields :
    response_get (JSONResponse_new rt response) "text" = Some (PStr (PyStr.strip t))
    /\ response_get (JSONResponse_new rt response) "filename"
       = Some (PStr (filename upload))).
  { destruct Hshape as [[_ ->] | [_ (segs & items & entries & _ & _ & _ & ->)]];
      by split. }
  destruct Hfields as [Htext Hname].
  split; [exact Htext|].
  split; [apply PyStrFacts.strip_first|].
  split; [apply PyStrFacts.strip_last|].
  split; [apply PyStrFacts.strip_split | exact Hname].
Qed.

(** C5 (as amended). In every call that returns a transcription, the
    engine was run on the staging file as it was on disk, and the
    response has a [segments] entry exactly when timestamps were asked
    for and the engine's result has a [segments] key.  The entry is then
    a list with one element per item of the engine's segments, in the
    same order, each made of the item's [start], [end] and [text] as
    the engine gave them. *)
Theorem segments_when_requested_and_returned upload language timestamp st r st' :
  transcribe_audio rt upload language timestamp st = (Return r, st') ->
  exists model path rest data res,
    whisper_model st = Some model
    /\ mkstemp (file_ext_of (filename upload)) (fs st) (tmp_names st) = (Return path, rest)
    /\ file upload = Return data
    /\ transcribe model (fs (staged_state rt st path data rest)) path
         (effective_language language) timestamp = Return res
    /\ (response_get r "segments" <> None <->
          timestamp = true /\ Py.dict_has res "segments" = true)
    /\ (forall v, response_get r "segments" = Some v ->
          exists segs items entries,
            Py.dict_get res "segments" = Some segs
            /\ Py.iter segs = Return items
            /\ v = PList entries
            /\ Forall2
                 (fun segment entry =>
                    exists s e t,
                      Py.getitem segment "start" = Return s
                      /\ Py.getitem segment "end" = Return e
                      /\ Py.getitem segment "text" = Return t
                      /\ entry = PDict [("start", s); ("end", e); ("text", t)])
                 items entries).
Proof.
  intros H.
  destruct (transcribe_audio_Return rt _ _ _ _ _ _ H)
    as (model & path & rest & data & res & response
        & Hmodel & _ & Hmk & Hread & _ & Heng & Hresp & ->).
  destruct (build_response_Return _ _ _ _ _ Hresp) as (t & Ht & Hshape).
  exists model, path, rest, data, res.
  split; [exact Hmodel|]. split; [exact Hmk|]. split; [exact Hread|].
  split; [exact Heng|].
  destruct Hshape as [[Hno ->] | [Hyes (segs & items & entries & Hsegs & Hiter & Hc & ->)]].
  - split.
    + split; [intros Hne; by contradiction Hne|].
      intros [-> Hhas]. simpl in Hno. congruence.
    + intros v Hv. discriminate Hv.
  - apply andb_true_iff in Hyes. split.
    + split; [intros _; exact Hyes | intros _; discriminate].
    + intros v [= <-]. exists segs, items, entries.
      repeat split; try assumption.
      apply comprehension_Forall2 in Hc.
      eapply Forall2_impl; [exact Hc|].
      intros segment entry Hentry. by apply segment_entry_Return.
Qed.

End Response.

(** * The batch handler *)

Section Batch.

Context (rt : Runtime).

Lemma batch_loop_acc files language acc st :
  batch_loop rt files language acc st =
    (acc ++ fst (batch_loop rt files language [] st),
     snd (batch_loop rt files language [] st)).
Proof.
  revert acc st. induction files as [|upload files IH]; intros acc st; simpl.
  - by rewrite app_nil_r.
  - destruct (batch_item rt upload language st) as [entry st1].
    rewrite (IH (acc ++ [entry])), (IH [entry]). simpl.
    by rewrite <- app_assoc.
Qed.

Lemma batch_loop_cons upload files language st :
  batch_loop rt (upload :: files) language [] st =
    (fst (batch_item rt upload language st)
       :: fst (batch_loop rt files language [] (snd (batch_item rt upload language st))),
     snd (batch_loop rt files language [] (snd (batch_item rt upload language st)))).
Proof.
  simpl. destruct (batch_item rt upload language st) as [entry st1].
  by rewrite batch_loop_acc.
Qed.



(** One turn of the loop under each interface of Starlette: with the
    current one the constructor of line 158 raises and the single-item
    handler is not reached. *)
Lemma batch_item_spec upload language st :
  batch_item rt upload language st =
    match starlette rt with
    | Starlette_legacy =>
        match transcribe_audio rt upload language false st with
        | (Return r, st') => (success_entry (filename upload) r, st')
        | (Raise e, st') => (error_entry rt (filename upload) e, st')
        end
    | Starlette_current =>
        (error_entry rt (filename upload)
           (TypeError (UnexpectedKeyword "UploadFile.__init__" "content_type")), st)
    end.
Proof.
  unfold batch_item, UploadFile_new.
  destruct (starlette rt); [|reflexivity]. by rewrite rewrap_upload.
Qed.


(** C4 (as amended). A batch item recorded with the status "success"
    is one whose [UploadFile] could be built (the legacy interface of
    Starlette) and whose single-item call returned a response [r].  Its
    entry carries the item's file name and, under [result], the text of
    the rendered response body: a string holding the JSON of the
    transcription result, which is a dictionary of [text], [language],
    [duration] and [filename], and not that dictionary itself. *)
Theorem batch_success_payload_is_rendered_text upload language st entry st' :
  batch_item rt upload language st = (entry, st') ->
  Py.getitem entry "status" = Return (PStr "success") ->
  exists r,
    starlette rt = Starlette_legacy
    /\ transcribe_audio rt upload language false st = (Return r, st')
    /\ entry = PDict [("filename", PStr (filename upload));
                      ("status", PStr "success");
                      ("result", PStr (json_dumps rt (content r)))]
    /\ (exists t lang duration,
          content r = PDict [("text", PStr t); ("language", lang);
                             ("duration", duration);
                             ("filename", PStr (filename upload))])
    /\ PStr (json_dumps rt (content r)) <> content r.
Proof.
  rewrite batch_item_spec. intros Hitem Hstatus.
  destruct (starlette rt) eqn:Hver.
  2: { injection Hitem as <- _. discriminate Hstatus. }
  destruct (transcribe_audio rt upload language false st) as [[r|e] st1] eqn:H.
  2: { injection Hitem as <- _. discriminate Hstatus. }
  injection Hitem as <- <-. exists r.
  destruct (transcribe_audio_Return rt _ _ _ _ _ _ H)
    as (model & path & rest & data & res & response
        & _ & _ & _ & _ & _ & _ & Hresp & Hr).
  destruct (build_response_Return _ _ _ _ _ Hresp) as (t & _ & Hshape).
  destruct Hshape as [[_ Hshape] | [Hyes _]]; [|discriminate Hyes].
  split; [reflexivity|]. split; [reflexivity|]. split; [|split].
  - by subst r.
  - subst r response. simpl. by eexists _, _, _.
  - subst r response. simpl. discriminate.
Qed.

(** A batch while the engine model is not loaded: it returns, with one
    entry per file in order, each with the status "error" and [str(e)]
    of what line 158 or the single-item call raised; the state is
    untouched. *)
Lemma batch_without_engine_entries files language st :
  whisper_model st = None ->
  let raised :=
    match starlette rt with
    | Starlette_legacy => HTTPException 500 "Whisper model not loaded"
    | Starlette_current =>
        TypeError (UnexpectedKeyword "UploadFile.__init__" "content_type")
    end in
  let entries :=
    map (fun upload =>
           PDict [("filename", PStr (filename upload));
                  ("status", PStr "error");
                  ("error", PStr (py_str rt raised))]) files in
  transcribe_batch rt files language st =
    (Return (JSONResponse_new rt (PDict [("results", PList entries)])), st)
  /\ length entries = length files.
Proof.
  intros Hmodel raised entries. split; [|apply length_map].
  assert (Hloop : batch_loop rt files language [] st = (entries, st)).
  { subst entries. induction files as [|upload files IH]; [reflexivity|].
    assert (Hitem : batch_item rt upload language st
                    = (error_entry rt (filename upload) raised, st)).
    { rewrite batch_item_spec. subst raised. unfold transcribe_audio.
      rewrite Hmodel. by destruct (starlette rt). }
    rewrite batch_loop_cons, Hitem. simpl. by rewrite IH. }
  unfold transcribe_batch. by rewrite Hloop.
Qed.

End Batch.

(** * The theorems at work on the scenarios *)

Lemma engine_check_precedes_validation_witness :
  ext_allowed (file_ext_of "clip.txt") = false
  /\ transcribe_audio Scenario.rt (Scenario.upload "clip.txt") (Some "si") false
       Scenario.not_loaded
     = (Raise (HTTPException 500 "Whisper model not loaded"), Scenario.not_loaded).
Proof.
  split; [reflexivity|].
  apply engine_check_precedes_validation. reflexivity.
Defined.

Example unsupported_extension_rejected_loaded :
  transcribe_audio Scenario.rt (Scenario.upload "notes.TXT") (Some "si") false
    Scenario.ready
  = (Raise (HTTPException 400
       "Unsupported file type: .txt. Allowed: {'.wav', '.mp3', '.m4a', '.flac', '.ogg', '.webm'}"),
     Scenario.ready).
Proof.
  apply (unsupported_extension_rejected Scenario.rt (Scenario.upload "notes.TXT")
           (Some "si") false Scenario.ready Scenario.engine).
  - apply Permutation_refl.
  - reflexivity.
  - reflexivity.
Qed.

(** C3 (the code departs from it).  The request of
    [test_transcribe_invalid_file_type], a file named [test.txt] with
    the language "si", made as the test makes it, in a process whose
    start-up has not run: the extension is not an allowed one and the
    test expects the 400 rejection, yet under every runtime the call
    raises the 500 error "Whisper model not loaded" and no 400 error,
    because the check of the model comes before the check of the
    extension. *)
Theorem invalid_file_type_answered_500 (rt : Runtime) :
  whisper_model Scenario.not_loaded = None
  /\ ext_allowed (file_ext_of (filename Scenario.test_txt)) = false
  /\ transcribe_audio rt Scenario.test_txt (Some "si") false Scenario.not_loaded
     = (Raise (HTTPException 500 "Whisper model not loaded"), Scenario.not_loaded)
  /\ forall detail,
       fst (transcribe_audio rt Scenario.test_txt (Some "si") false Scenario.not_loaded)
       <> Raise (HTTPException 400 detail).
Proof.
  split; [reflexivity|]. split; [reflexivity|]. split; [reflexivity|].
  intros detail. discriminate.
Qed.

Lemma staging_file_released_witness :
  fs (snd (transcribe_audio Scenario.rt (Scenario.upload "clip.wav") (Some "en") false
             Scenario.ready)) !! Scenario.staging = None.
Proof.
  apply (staging_file_released Scenario.rt (Scenario.upload "clip.wav") (Some "en")
           false Scenario.ready Scenario.engine Scenario.staging ["p0w7zz1c"]
           Scenario.audio); vm_compute; reflexivity.
Defined.

(** C1, as stated, fails: when deleting is refused the call still
    returns its transcription, and the staging file, which did not exist
    before the call, is left behind with the uploaded bytes. *)
Lemma staging_file_left_when_unlink_fails :
  fs Scenario.ready !! Scenario.staging = None
  /\ fst (transcribe_audio Scenario.rt_locked (Scenario.upload "clip.wav") (Some "en")
            false Scenario.ready)
     = Return (Scenario.transcript "clip.wav" false)
  /\ fs (snd (transcribe_audio Scenario.rt_locked (Scenario.upload "clip.wav")
                (Some "en") false Scenario.ready)) !! Scenario.staging
     = Some Scenario.audio.
Proof. repeat split; vm_compute; reflexivity. Qed.

Example unlink_refused :
  fst (transcribe_audio Scenario.rt_locked (Scenario.upload "clip.wav") (Some "en")
         false Scenario.ready)
  <> Raise (OSError "[Errno 13] Permission denied").
Proof.
  apply (unlink_failure_swallowed Scenario.rt_locked (Scenario.upload "clip.wav")
           (Some "en") false Scenario.ready Scenario.engine Scenario.staging
           ["p0w7zz1c"] Scenario.audio "[Errno 13] Permission denied");
    vm_compute; reflexivity.
Qed.

(** The engine that answers with what it was given shows the hint and
    the flag that reach it: for the language "xx" it was given no hint,
    and the flag of the caller. *)
Lemma language_hint_normalised_witness :
  fst (transcribe_audio Scenario.rt (Scenario.upload "clip.wav") (Some "xx") true
         (Deployment.ready_with Scenario.telltale_engine))
  = Return (JSONResponse_new Scenario.rt
              (PDict [("text", PStr "(no hint)"); ("language", PStr "xx");
                      ("duration", PBool true); ("filename", PStr "clip.wav")]))
  /\ engine_log (snd (transcribe_audio Scenario.rt (Scenario.upload "clip.wav")
                        (Some "xx") true
                        (Deployment.ready_with Scenario.telltale_engine)))
     = [EngineCall Scenario.staging None true].
Proof.
  destruct (language_hint_normalised Scenario.rt (Scenario.upload "clip.wav")
              (Some "xx") true (Deployment.ready_with Scenario.telltale_engine))
    as (_ & _ & Hstaged & _ & _).
  destruct (Hstaged Scenario.telltale_engine Scenario.staging ["p0w7zz1c"]
              Scenario.audio) as [Hout Hlog]; try (vm_compute; reflexivity).
  split; [rewrite Hout | rewrite Hlog]; vm_compute; reflexivity.
Defined.

Example hint_si_reaches_engine :
  fst (transcribe_audio Scenario.rt (Scenario.upload "clip.wav") (Some "si") false
         (Deployment.ready_with Scenario.telltale_engine))
  = Return (JSONResponse_new Scenario.rt
              (PDict [("text", PStr "si"); ("language", PStr "si");
                      ("duration", PBool false); ("filename", PStr "clip.wav")])).
Proof. vm_compute. reflexivity. Qed.

Lemma text_trimmed_filename_echoed_witness :
  exists t,
    response_get (Scenario.transcript "clip.wav" true) "text" = Some (PStr (PyStr.strip t))
    /\ response_get (Scenario.transcript "clip.wav" true) "filename"
       = Some (PStr "clip.wav").
Proof.
  destruct (text_trimmed_filename_echoed Scenario.rt (Scenario.upload "clip.wav")
              (Some "en") true Scenario.ready (Scenario.transcript "clip.wav" true)
              (snd (transcribe_audio Scenario.rt (Scenario.upload "clip.wav")
                      (Some "en") true Scenario.ready)))
    as (model & path & rest & data & res & t
        & _ & _ & _ & _ & _ & Htext & _ & _ & _ & Hname).
  { vm_compute. reflexivity. }
  exists t. split; assumption.
Defined.

Lemma segments_when_requested_and_returned_witness :
  response_get (Scenario.transcript "clip.wav" true) "segments" <> None.
Proof.
  destruct (segments_when_requested_and_returned Scenario.rt (Scenario.upload "clip.wav")
              (Some "en") true Scenario.ready (Scenario.transcript "clip.wav" true)
              (snd (transcribe_audio Scenario.rt (Scenario.upload "clip.wav")
                      (Some "en") true Scenario.ready)))
    as (model & path & rest & data & res & Hmodel & _ & _ & Heng & Hiff & _).
  { vm_compute. reflexivity. }
  injection Hmodel as <-. injection Heng as <-.
  apply Hiff. split; reflexivity.
Defined.

(** C5, as stated, fails on the text of a segment: the engine's segment
    text " hi there" comes back with its leading space. *)
Lemma segment_text_not_trimmed :
  fst (transcribe_audio Scenario.rt (Scenario.upload "clip.wav") (Some "en") true
         Scenario.ready)
  = Return (Scenario.transcript "clip.wav" true)
  /\ Py.getitem Scenario.segment0 "text" = Return (PStr " hi there")
  /\ response_get (Scenario.transcript "clip.wav" true) "segments"
     = Some (PList [PDict [("start", PFloat 0 0); ("end", PFloat 3 (-1));
                           ("text", PStr " hi there")]])
  /\ PStr " hi there" <> PStr (PyStr.strip " hi there").
Proof. repeat split; try (vm_compute; reflexivity). vm_compute. discriminate. Qed.


Lemma batch_success_payload_is_rendered_text_witness :
  exists r,
    fst (transcribe_audio Scenario.rt (Scenario.upload "clip.wav") (Some "en") false
           Scenario.ready)
    = Return r
    /\ fst (batch_item Scenario.rt (Scenario.upload "clip.wav") (Some "en")
              Scenario.ready)
       = PDict [("filename", PStr "clip.wav"); ("status", PStr "success");
                ("result", PStr (json_dumps Scenario.rt (content r)))]
    /\ PStr (json_dumps Scenario.rt (content r)) <> content r.
Proof.
  destruct (batch_success_payload_is_rendered_text Scenario.rt
              (Scenario.upload "clip.wav") (Some "en") Scenario.ready
              (fst (batch_item Scenario.rt (Scenario.upload "clip.wav") (Some "en")
                      Scenario.ready))
              (snd (batch_item Scenario.rt (Scenario.upload "clip.wav") (Some "en")
                      Scenario.ready)))
    as (r & _ & Hcall & Hentry & _ & Hne).
  { by destruct (batch_item _ _ _ _). }
  { vm_compute. reflexivity. }
  exists r. split; [by rewrite Hcall|]. split; assumption.
Defined.

(** C4, as stated, fails.  With the interface of Starlette that takes
    the keywords of line 158, the payload recorded for a successful item
    is a string, the rendered body, where the single-item flow produced
    a dictionary. *)
Lemma batch_payload_not_the_structure :
  fst (transcribe_audio Scenario.rt (Scenario.upload "clip.wav") (Some "en") false
         Scenario.ready)
  = Return (Scenario.transcript "clip.wav" false)
  /\ fst (transcribe_batch Scenario.rt [Scenario.upload "clip.wav"] (Some "en")
            Scenario.ready)
     = Return (JSONResponse_new Scenario.rt
                 (PDict [("results",
                          PList [PDict [("filename", PStr "clip.wav");
                                        ("status", PStr "success");
                                        ("result", PStr "{...}")]])]))
  /\ PStr "{...}" <> content (Scenario.transcript "clip.wav" false).
Proof. repeat split; try (vm_compute; reflexivity). vm_compute. discriminate. Qed.

(** C10 (the code departs from it).  A batch of one allowed file in a
    process whose engine model is not loaded.  The batch returns one
    entry with the status "error", but the entry does not carry the
    message of the single-item call, which raised the 500 error "Whisper
    model not loaded".  With the legacy interface of Starlette [str(e)]
    of that error is the empty string; with the current interface the
    item is never handed to the single-item handler, line 158 raises
    [TypeError], and the entry carries the text of that error.  This is
    so under every runtime, whatever its rendering of exceptions. *)
Theorem batch_without_engine_loses_message :
  let files := [Scenario.upload "clip.wav"] in
  let entry (msg : string) :=
    PDict [("filename", PStr "clip.wav"); ("status", PStr "error");
           ("error", PStr msg)] in
  let answer (rt : Runtime) (msg : string) :=
    (Return (JSONResponse_new rt (PDict [("results", PList [entry msg])])),
     Scenario.not_loaded) in
  (forall rt,
     transcribe_audio rt (Scenario.upload "clip.wav") (Some "en") false
       Scenario.not_loaded
     = (Raise (HTTPException 500 "Whisper model not loaded"), Scenario.not_loaded))
  /\ transcribe_batch Scenario.rt files (Some "en") Scenario.not_loaded
     = answer Scenario.rt EmptyString
  /\ transcribe_batch Scenario.rt_current files (Some "en") Scenario.not_loaded
     = answer Scenario.rt_current
         "UploadFile.__init__() got an unexpected keyword argument 'content_type'"
  /\ (forall rt,
        transcribe_batch rt files (Some "en") Scenario.not_loaded
        = answer rt
            match starlette rt with
            | Starlette_legacy => EmptyString
            | Starlette_current =>
                exn_str rt
                  (TypeError (UnexpectedKeyword "UploadFile.__init__" "content_type"))
            end).
Proof.
  split; [reflexivity|]. split; [vm_compute; reflexivity|].
  split; [vm_compute; reflexivity|].
  intros rt.
  destruct (batch_without_engine_entries rt [Scenario.upload "clip.wav"] (Some "en")
              Scenario.not_loaded eq_refl) as [Hbatch _].
  rewrite Hbatch. unfold py_str. by destruct (starlette rt).
Qed.

(** One bad file does not stop the batch (property 6 of the
    specification): the [.txt] file is answered by an error entry, the
    [.wav] file after it by a success entry.  The error entry carries
    [str(e)] of the 400 rejection, which is empty with the legacy
    interface. *)
Example batch_isolation :
  fst (transcribe_batch Scenario.rt
         [Scenario.upload "notes.txt"; Scenario.upload "clip.wav"] (Some "si")
         Scenario.ready)
  = Return (JSONResponse_new Scenario.rt
      (PDict [("results",
               PList [PDict [("filename", PStr "notes.txt"); ("status", PStr "error");
                             ("error", PStr EmptyString)];
                      PDict [("filename", PStr "clip.wav"); ("status", PStr "success");
                             ("result", PStr "{...}")]])])).
Proof. vm_compute. reflexivity. Qed.

(** The same batch with the current interface: no file is transcribed. *)
Example batch_current_interface :
  transcribe_batch Scenario.rt_current
    [Scenario.upload "notes.txt"; Scenario.upload "clip.wav"] (Some "si") Scenario.ready
  = (Return (JSONResponse_new Scenario.rt_current
      (PDict [("results",
               PList [PDict [("filename", PStr "notes.txt"); ("status", PStr "error");
                             ("error", PStr "UploadFile.__init__() got an unexpected keyword argument 'content_type'")];
                      PDict [("filename", PStr "clip.wav"); ("status", PStr "error");
                             ("error", PStr "UploadFile.__init__() got an unexpected keyword argument 'content_type'")]])])),
     Scenario.ready).
Proof. vm_compute. reflexivity. Qed.

(** C6 (the code departs from it).  With a full disk the release step
    fails and its error is not ignored.  For an upload longer than the
    buffer, [temp_file.write] raises, which [except] turns into the 500
    error "Transcription failed: ..."; the local [temp_file_path] was
    never bound, so [os.unlink(temp_file_path)] in the [finally] block
    raises [UnboundLocalError]; that is no [OSError], nothing catches
    it, and it replaces the 500 error as the outcome of the call.  The
    staging file is left behind, empty.  For an upload that fits the
    buffer the write fails when the file object is closed at the exit
    of [with], after the response was built, and that [OSError] is the
    outcome of the call. *)
Theorem release_error_replaces_primary_outcome :
  let upload := Scenario.long_upload "clip.wav" in
  let created := snd (NamedTemporaryFile ".wav" Scenario.ready) in
  let '(temp_file_path, unwritten, r, st) :=
    try_body Scenario.rt_full Scenario.engine upload (Some "en") false
      Scenario.staging created in
  let outcome := transcribe_audio Scenario.rt_full upload (Some "en") false Scenario.ready in
  fst (NamedTemporaryFile ".wav" Scenario.ready) = Return Scenario.staging
  /\ temp_file_path = None
  /\ except_clause Scenario.rt_full r
     = Raise (HTTPException 500
                "Transcription failed: [Errno 28] No space left on device")
  /\ fst (finally_block Scenario.rt_full temp_file_path st)
     = Raise (UnboundLocalError "temp_file_path")
  /\ is_OSError (UnboundLocalError "temp_file_path") = false
  /\ fst outcome = Raise (UnboundLocalError "temp_file_path")
  /\ fs (snd outcome) !! Scenario.staging = Some []
  /\ fst (transcribe_audio Scenario.rt_full (Scenario.upload "clip.wav") (Some "en")
            false Scenario.ready)
     = Raise (OSError "[Errno 28] No space left on device").
Proof. repeat split; vm_compute; reflexivity. Qed.

(** A failing engine: the 500 error carries the engine's message and
    the staging file is gone. *)
Example engine_failure :
  let st :=
    {| whisper_model := Some Scenario.broken_engine; fs := ∅;
       tmp_names := ["k3x9q2ab"]; engine_log := [] |} in
  fst (transcribe_audio Scenario.rt (Scenario.upload "clip.wav") (Some "en") false st)
  = Raise (HTTPException 500 "Transcription failed: Failed to load audio")
  /\ fs (snd (transcribe_audio Scenario.rt (Scenario.upload "clip.wav") (Some "en")
                false st)) !! Scenario.staging
     = None.
Proof. split; vm_compute; reflexivity. Qed.

(** An upload that cannot be read, in a batch: the [UnboundLocalError]
    of the single-item call is caught like any other error and the file
    after it is transcribed. *)
Example unreadable_in_batch :
  fst (transcribe_batch Scenario.rt
         [Scenario.unreadable "lost.wav"; Scenario.upload "clip.wav"] (Some "en")
         Scenario.ready)
  = Return (JSONResponse_new Scenario.rt
      (PDict [("results",
               PList [PDict [("filename", PStr "lost.wav"); ("status", PStr "error");
                             ("error",
                              PStr "cannot access local variable 'temp_file_path' where it is not associated with a value")];
                      PDict [("filename", PStr "clip.wav"); ("status", PStr "success");
                             ("result", PStr "{...}")]])])).
Proof. vm_compute. reflexivity. Qed.

(** The engine reads the staging file as it is on disk when it is
    called: an upload that fits the buffer has not reached the file
    yet, a longer one has. *)
Example engine_sees_unflushed_file :
  on_disk Scenario.rt Scenario.audio = []
  /\ fs (staged_state Scenario.rt Scenario.ready Scenario.staging Scenario.audio
           ["p0w7zz1c"]) !! Scenario.staging = Some []
  /\ fs (staged_state Scenario.rt Scenario.ready Scenario.staging Scenario.long_audio
           ["p0w7zz1c"]) !! Scenario.staging = Some Scenario.long_audio.
Proof. repeat split; vm_compute; reflexivity. Qed.

(** An engine that measures its file finds nothing in the staging file
    of a short upload and the whole of a long one. *)
Example engine_measures_staging_file :
  fst (transcribe_audio Scenario.rt (Scenario.upload "clip.wav") None false
         (Deployment.ready_with Deployment.measuring_engine))
  = Return (JSONResponse_new Scenario.rt
              (PDict [("text", PStr "ok"); ("language", PNone);
                      ("duration", PInt 0); ("filename", PStr "clip.wav")]))
  /\ fst (transcribe_audio Scenario.rt (Scenario.long_upload "clip.wav") None false
            (Deployment.ready_with Deployment.measuring_engine))
     = Return (JSONResponse_new Scenario.rt
                 (PDict [("text", PStr "ok"); ("language", PNone);
                         ("duration", PInt 9000); ("filename", PStr "clip.wav")])).
Proof. split; vm_compute; reflexivity. Qed.

(** * Further properties of the single-item handler *)

Section SingleItemMore.

Context (rt : Runtime).

Lemma transcription_failed_not_unavailable (s : string) :
  "Transcription failed: " +:+ s <> "Whisper model not loaded".
Proof. rewrite PyStrFacts.app_cons. discriminate. Qed.

(** X1. When the engine raises [e] in a call that wrote its staging
    file and could close it, the call raises the 500 error whose detail
    is "Transcription failed: " followed by [str(e)], whatever exception
    [e] is. *)
Theorem engine_error_becomes_500 upload language timestamp st model path rest data e :
  whisper_model st = Some model ->
  ext_allowed (file_ext_of (filename upload)) = true ->
  mkstemp (file_ext_of (filename upload)) (fs st) (tmp_names st) = (Return path, rest) ->
  file upload = Return data ->
  write_fault rt path data = None ->
  transcribe model (fs (staged_state rt st path data rest)) path
    (effective_language language) timestamp = Raise e ->
  fst (transcribe_audio rt upload language timestamp st) =
    Raise (HTTPException 500 ("Transcription failed: " +:+ py_str rt e)).
Proof.
  intros Hmodel Hext Hmk Hread Hwrite Heng.
  rewrite (transcribe_audio_staged rt _ _ _ _ _ _ _ _ Hmodel Hext Hmk Hread
             (or_intror Hwrite)).
  cbn [fst]. by rewrite Heng.
Qed.

(** X2. When the engine's result has no [text] key, or a [text] that
    is not a string, the call does not return a partial response: it
    raises the 500 error carrying the [KeyError] for "text", or the
    [AttributeError] that the type of the value has no [strip]. *)
Theorem missing_text_becomes_500 upload language timestamp st model path rest data res :
  whisper_model st = Some model ->
  ext_allowed (file_ext_of (filename upload)) = true ->
  mkstemp (file_ext_of (filename upload)) (fs st) (tmp_names st) = (Return path, rest) ->
  file upload = Return data ->
  write_fault rt path data = None ->
  transcribe model (fs (staged_state rt st path data rest)) path
    (effective_language language) timestamp = Return res ->
  (forall t, Py.dict_get res "text" <> Some (PStr t)) ->
  let outcome := fst (transcribe_audio rt upload language timestamp st) in
  (Py.dict_get res "text" = None ->
     outcome = Raise (HTTPException 500
                        ("Transcription failed: " +:+ py_str rt (KeyError "text"))))
  /\ (forall v, Py.dict_get res "text" = Some v ->
        outcome = Raise (HTTPException 500
                    ("Transcription failed: "
                       +:+ py_str rt (AttributeError (Py.type_name v) "strip")))).
Proof.
  intros Hmodel Hext Hmk Hread Hwrite Heng Htext outcome. subst outcome.
  rewrite (transcribe_audio_staged rt _ _ _ _ _ _ _ _ Hmodel Hext Hmk Hread
             (or_intror Hwrite)).
  cbn [fst]. rewrite Heng. unfold response_of. simpl.
  unfold build_response, Py.dict_getitem. split.
  - by intros ->.
  - intros v Hv. rewrite Hv. simpl.
    destruct v; try reflexivity. by contradiction (Htext s).
Qed.

(** X3. In a response, [language] is the language the engine reports
    for the staging file as it was on disk and, when it reports none,
    the caller's own value ([None] included, and not the hint given to
    the engine); [duration] is the engine's duration and 0 when it
    reports none. *)
Theorem language_and_duration_defaults upload language timestamp st r st' :
  transcribe_audio rt upload language timestamp st = (Return r, st') ->
  exists model path rest data res,
    whisper_model st = Some model
    /\ mkstemp (file_ext_of (filename upload)) (fs st) (tmp_names st) = (Return path, rest)
    /\ file upload = Return data
    /\ transcribe model (fs (staged_state rt st path data rest)) path
         (effective_language language) timestamp = Return res
    /\ response_get r "language" =
         Some (match Py.dict_get res "language" with
               | Some reported => reported
               | None => match language with Some l => PStr l | None => PNone end
               end)
    /\ response_get r "duration" =
         Some (match Py.dict_get res "duration" with
               | Some reported => reported
               | None => PInt 0
               end).
Proof.
  intros H.
  destruct (transcribe_audio_Return rt _ _ _ _ _ _ H)
    as (model & path & rest & data & res & response
        & Hmodel & _ & Hmk & Hread & _ & Heng & Hresp & ->).
  destruct (build_response_Return _ _ _ _ _ Hresp) as (t & Ht & Hshape).
  exists model, path, rest, data, res.
  split; [exact Hmodel|]. split; [exact Hmk|]. split; [exact Hread|].
  split; [exact Heng|].
  destruct Hshape as [[_ ->] | [_ (segs & items & entries & _ & _ & _ & ->)]];
    split; unfold response_get, Py.dict_get_default; simpl;
    by destruct language.
Qed.


(** X5. A call never changes or deletes a file that existed before it:
    whatever the outcome and whatever fails, every path that held a
    file before the call holds the same bytes after it. *)
Theorem existing_files_untouched upload language timestamp st p content :
  fs st !! p = Some content ->
  fs (snd (transcribe_audio rt upload language timestamp st)) !! p = Some content.
Proof.
  intros Hp.
  destruct (transcribe_audio_paths rt upload language timestamp st)
    as [[_ Hc] | [(model & _ & _ & Hc) | [(model & e' & rest & _ & _ & Hmk & Hc)
       | [(model & path & rest & _ & _ & Hmk & _ & Hc)
       | [(model & path & rest & data & msg & _ & _ & Hmk & _ & _ & _ & _ & Hc)
       | (model & path & rest & data & _ & _ & Hmk & _ & _ & Hc)]]]]];
    rewrite Hc; cbn [snd]; try exact Hp.
  - simpl. apply mkstemp_fresh in Hmk.
    rewrite lookup_insert_ne; [exact Hp | congruence].
  - apply mkstemp_fresh in Hmk.
    assert (path <> p) by congruence.
    destruct (unlink_fault rt path); simpl.
    + by rewrite lookup_insert_ne.
    + by rewrite lookup_delete_ne, lookup_insert_ne.
  - apply mkstemp_fresh in Hmk.
    assert (path <> p) by congruence.
    destruct (unlink_fault rt path); simpl.
    + by rewrite !lookup_insert_ne.
    + by rewrite lookup_delete_ne, !lookup_insert_ne.
Qed.

Lemma transcribe_audio_log upload language timestamp st :
  let st' := snd (transcribe_audio rt upload language timestamp st) in
  whisper_model st' = whisper_model st
  /\ exists calls,
       engine_log st' = engine_log st ++ calls
       /\ (length calls <= 1)%nat
       /\ Forall (fun ev =>
                    exists path,
                      ev = EngineCall path (effective_language language) timestamp)
            calls.
Proof.
  destruct (transcribe_audio_paths rt upload language timestamp st)
    as [[_ Hc] | [(model & _ & _ & Hc) | [(model & e' & rest & _ & _ & Hmk & Hc)
       | [(model & path & rest & _ & _ & Hmk & _ & Hc)
       | [(model & path & rest & data & msg & _ & _ & Hmk & _ & _ & _ & _ & Hc)
       | (model & path & rest & data & _ & _ & Hmk & _ & _ & Hc)]]]]];
    cbv zeta; rewrite Hc; cbn [snd].
  1-4: split; [reflexivity|]; exists []; rewrite app_nil_r;
       split; [reflexivity|]; split; [simpl; lia | constructor].
  all: split; [by destruct (unlink_fault rt path)|];
       exists [EngineCall path (effective_language language) timestamp];
       split; [by destruct (unlink_fault rt path)|];
       split; [simpl; lia|]; constructor; [by exists path | constructor].
Qed.

(** X6. A call does not touch the engine handle, and it calls the
    engine at most once: the log of engine calls is extended by nothing
    or by one call, made with the normalised hint and the caller's
    timestamp flag.  A call that wrote its staging file makes exactly
    one call, on that file, and what it answers is made from what
    [transcribe] returned for these arguments. *)
Theorem handle_kept_one_engine_call upload language timestamp st :
  let st' := snd (transcribe_audio rt upload language timestamp st) in
  whisper_model st' = whisper_model st
  /\ (exists calls,
        engine_log st' = engine_log st ++ calls
        /\ (length calls <= 1)%nat
        /\ Forall (fun ev =>
                     exists path,
                       ev = EngineCall path (effective_language language) timestamp)
             calls)
  /\ (forall model path rest data,
        whisper_model st = Some model ->
        ext_allowed (file_ext_of (filename upload)) = true ->
        mkstemp (file_ext_of (filename upload)) (fs st) (tmp_names st)
          = (Return path, rest) ->
        file upload = Return data ->
        write_fault rt path data = None ->
        engine_log st' =
          engine_log st ++ [EngineCall path (effective_language language) timestamp]
        /\ fst (transcribe_audio rt upload language timestamp st) =
             except_clause rt
               (response_of rt
                  (transcribe model (fs (staged_state rt st path data rest)) path
                     (effective_language language) timestamp)
                  (filename upload) language timestamp)).
Proof.
  destruct (transcribe_audio_log upload language timestamp st) as [Hmodel Hcalls].
  split; [exact Hmodel|]. split; [exact Hcalls|].
  intros model path rest data Hm Hext Hmk Hread Hwrite.
  rewrite (transcribe_audio_staged rt _ _ _ _ _ _ _ _ Hm Hext Hmk Hread
             (or_intror Hwrite)).
  split; [|reflexivity]. cbn [snd]. by destruct (unlink_fault rt path).
Qed.

(** With no fault and a readable upload, the filesystem after a call is
    the one before it, on every way through the call. *)
Lemma transcribe_audio_fs_restored upload language timestamp st :
  fault_free rt -> readable upload ->
  fs (snd (transcribe_audio rt upload language timestamp st)) = fs st.
Proof.
  intros [Hwrite Hunlink] [data Hread].
  destruct (transcribe_audio_paths rt upload language timestamp st)
    as [[_ Hc] | [(model & _ & _ & Hc) | [(model & e' & rest & _ & _ & Hmk & Hc)
       | [(model & path & rest & _ & _ & Hmk & Hfail & Hc)
       | [(model & path & rest & data' & msg & _ & _ & Hmk & _ & _ & _ & Hfault & Hc)
       | (model & path & rest & data' & _ & _ & Hmk & _ & _ & Hc)]]]]];
    rewrite Hc; cbn [snd]; try reflexivity.
  - destruct (Hfail data Hread) as [_ Hne]. by contradiction Hne.
  - rewrite Hwrite in Hfault. discriminate Hfault.
  - rewrite Hunlink. simpl. apply mkstemp_fresh in Hmk.
    rewrite !delete_insert_eq. by apply delete_id.
Qed.

(** X7. With timestamps off the segments of the engine are not looked
    at: a call that wrote its staging file and could close it returns a
    response exactly when the engine returns a result whose [text] is a
    string, and the response then has the four keys [text], [language],
    [duration] and [filename] and no other. *)
Theorem success_without_timestamps upload language st model path rest data :
  whisper_model st = Some model ->
  ext_allowed (file_ext_of (filename upload)) = true ->
  mkstemp (file_ext_of (filename upload)) (fs st) (tmp_names st) = (Return path, rest) ->
  file upload = Return data ->
  write_fault rt path data = None ->
  let outcome := fst (transcribe_audio rt upload language false st) in
  let engine_result :=
    transcribe model (fs (staged_state rt st path data rest)) path
      (effective_language language) false in
  ((exists r, outcome = Return r) <->
   (exists res t, engine_result = Return res /\ Py.dict_get res "text" = Some (PStr t)))
  /\ (forall r, outcome = Return r ->
        exists t lang duration,
          content r = PDict [("text", PStr t); ("language", lang);
                             ("duration", duration);
                             ("filename", PStr (filename upload))]).
Proof.
  intros Hmodel Hext Hmk Hread Hwrite outcome engine_result.
  subst outcome engine_result.
  rewrite (transcribe_audio_staged rt _ _ _ _ _ _ _ _ Hmodel Hext Hmk Hread
             (or_intror Hwrite)).
  cbn [fst]. unfold response_of.
  destruct (transcribe model _ path _ false) as [res|e] eqn:Heng; simpl.
  - unfold build_response, Py.dict_getitem.
    destruct (Py.dict_get res "text") as [[| | | |t| |]|] eqn:Ht; simpl.
    all: split;
      [split;
       [ intros [r Hr]; try discriminate Hr; by exists res, t
       | intros (res' & t' & Hres & Ht'); injection Hres as <-;
         try discriminate Ht'; try congruence; by eexists ]
      | intros r Hr; try discriminate Hr; injection Hr as <-; by eexists _, _, _ ].
  - split; [split|].
    + intros [r Hr]. discriminate Hr.
    + intros (res & t & Hres & _). discriminate Hres.
    + intros r Hr. discriminate Hr.
Qed.

End SingleItemMore.

(** * Further properties of the batch handler *)

Section BatchMore.

Context (rt : Runtime).

Lemma batch_item_state upload language st :
  snd (batch_item rt upload language st)
  = match starlette rt with
    | Starlette_legacy => snd (transcribe_audio rt upload language false st)
    | Starlette_current => st
    end.
Proof.
  rewrite batch_item_spec. destruct (starlette rt); [|reflexivity].
  by destruct (transcribe_audio rt upload language false st) as [[r|e] st1].
Qed.

Lemma transcribe_batch_state files language st :
  snd (transcribe_batch rt files language st)
  = snd (batch_loop rt files language [] st).
Proof. unfold transcribe_batch. by destruct (batch_loop rt files language [] st). Qed.

Lemma batch_loop_app xs ys language st :
  batch_loop rt (xs ++ ys) language [] st =
    (fst (batch_loop rt xs language [] st)
       ++ fst (batch_loop rt ys language [] (snd (batch_loop rt xs language [] st))),
     snd (batch_loop rt ys language [] (snd (batch_loop rt xs language [] st)))).
Proof.
  revert st. induction xs as [|x xs IH]; intros st.
  - simpl. by destruct (batch_loop rt ys language [] st).
  - change ((x :: xs) ++ ys) with (x :: (xs ++ ys)).
    rewrite !batch_loop_cons, IH. reflexivity.
Qed.

Lemma batch_loop_current files language st :
  starlette rt = Starlette_current ->
  snd (batch_loop rt files language [] st) = st.
Proof.
  intros Hver. induction files as [|upload files IH]; [reflexivity|].
  rewrite batch_loop_cons. cbn [snd]. rewrite batch_item_state, Hver. exact IH.
Qed.

Lemma batch_loop_log files language st :
  let st' := snd (batch_loop rt files language [] st) in
  whisper_model st' = whisper_model st
  /\ exists calls,
       engine_log st' = engine_log st ++ calls
       /\ (length calls <= length files)%nat
       /\ Forall (fun ev =>
                    exists path,
                      ev = EngineCall path (effective_language language) false)
            calls.
Proof.
  cbv zeta. revert st. induction files as [|upload files IH]; intros st.
  - simpl. split; [reflexivity|]. exists []. rewrite app_nil_r.
    split; [reflexivity|]. split; [simpl; lia | constructor].
  - rewrite batch_loop_cons. cbn [snd]. rewrite batch_item_state.
    destruct (starlette rt).
    + destruct (transcribe_audio_log rt upload language false st)
        as (Hm1 & calls1 & Hlog1 & Hlen1 & Hall1).
      destruct (IH (snd (transcribe_audio rt upload language false st)))
        as (Hm2 & calls2 & Hlog2 & Hlen2 & Hall2).
      split; [congruence|]. exists (calls1 ++ calls2).
      split; [by rewrite Hlog2, Hlog1, app_assoc|].
      split; [rewrite length_app; simpl; lia|].
      by apply Forall_app.
    + destruct (IH st) as (Hm & calls & Hlog & Hlen & Hall).
      split; [exact Hm|]. exists calls.
      split; [exact Hlog|]. split; [simpl; lia | exact Hall].
Qed.

(** X8. A batch calls the engine at most once per file, always with
    timestamps off and with the normalised hint of the batch, and it
    leaves the engine handle as it was.  With the current interface of
    Starlette it does not call the engine at all and leaves the state
    as it was.  With the legacy interface a batch of one file that
    wrote its staging file makes exactly one call, on that file, and
    its entry is made from what [transcribe] returned for these
    arguments. *)
Theorem batch_engine_calls files language st :
  let st' := snd (transcribe_batch rt files language st) in
  whisper_model st' = whisper_model st
  /\ (exists calls,
        engine_log st' = engine_log st ++ calls
        /\ (length calls <= length files)%nat
        /\ Forall (fun ev =>
                     exists path,
                       ev = EngineCall path (effective_language language) false)
             calls)
  /\ (starlette rt = Starlette_current -> st' = st)
  /\ (forall upload model path rest data,
        starlette rt = Starlette_legacy ->
        files = [upload] ->
        whisper_model st = Some model ->
        ext_allowed (file_ext_of (filename upload)) = true ->
        mkstemp (file_ext_of (filename upload)) (fs st) (tmp_names st)
          = (Return path, rest) ->
        file upload = Return data ->
        write_fault rt path data = None ->
        engine_log st' =
          engine_log st ++ [EngineCall path (effective_language language) false]
        /\ fst (transcribe_batch rt files language st) =
             Return (JSONResponse_new rt
               (PDict [("results",
                        PList [match
                                 except_clause rt
                                   (response_of rt
                                      (transcribe model
                                         (fs (staged_state rt st path data rest)) path
                                         (effective_language language) false)
                                      (filename upload) language false)
                               with
                               | Return r => success_entry (filename upload) r
                               | Raise e => error_entry rt (filename upload) e
                               end])]))).
Proof.
  cbv zeta. rewrite transcribe_batch_state.
  destruct (batch_loop_log files language st) as [Hmodel Hcalls].
  split; [exact Hmodel|]. split; [exact Hcalls|].
  split; [apply batch_loop_current|].
  intros upload model path rest data Hver -> Hm Hext Hmk Hread Hwrite.
  unfold transcribe_batch. rewrite batch_loop_cons. cbn [batch_loop fst snd].
  rewrite batch_item_spec, Hver.
  rewrite (transcribe_audio_staged rt _ _ _ _ _ _ _ _ Hm Hext Hmk Hread
             (or_intror Hwrite)).
  destruct (except_clause rt _) as [r|e]; cbn [fst snd];
    (split; [by destruct (unlink_fault rt path) | reflexivity]).
Qed.

(** X9. Batches compose: the results of a batch over [xs ++ ys] are the
    results of the batch over [xs] followed by the results of the batch
    over [ys] run in the state the first batch left. *)
Theorem batch_of_concatenation xs ys language st :
  exists rx ry st1 st2,
    transcribe_batch rt xs language st =
      (Return (JSONResponse_new rt (PDict [("results", PList rx)])), st1)
    /\ transcribe_batch rt ys language st1 =
         (Return (JSONResponse_new rt (PDict [("results", PList ry)])), st2)
    /\ transcribe_batch rt (xs ++ ys) language st =
         (Return (JSONResponse_new rt (PDict [("results", PList (rx ++ ry))])), st2).
Proof.
  exists (fst (batch_loop rt xs language [] st)),
         (fst (batch_loop rt ys language [] (snd (batch_loop rt xs language [] st)))),
         (snd (batch_loop rt xs language [] st)),
         (snd (batch_loop rt ys language [] (snd (batch_loop rt xs language [] st)))).
  unfold transcribe_batch. rewrite batch_loop_app.
  split; [by destruct (batch_loop rt xs language [] st)|].
  split; [|reflexivity].
  by destruct (batch_loop rt ys language [] (snd (batch_loop rt xs language [] st))).
Qed.

(** X10. When neither writing nor deleting fails and every upload can
    be read, a batch leaves the filesystem exactly as it found it,
    whatever the engine does and however many items are rejected. *)
Theorem batch_leaves_no_file files language st :
  fault_free rt ->
  Forall readable files ->
  fs (snd (transcribe_batch rt files language st)) = fs st.
Proof.
  intros Hrt Hfiles. rewrite transcribe_batch_state.
  revert st. induction Hfiles as [|upload files Hupload _ IH]; intros st;
    [reflexivity|].
  rewrite batch_loop_cons. cbn [snd]. rewrite batch_item_state, IH.
  destruct (starlette rt); [|reflexivity].
  by apply transcribe_audio_fs_restored.
Qed.

End BatchMore.

(** * Start-up and the metadata endpoints *)

Section Metadata.

Context (rt : Runtime).

Lemma health_reports_engine_aux st upload language timestamp :
  Py.getitem (health_check st) "model_loaded" = Return (PBool false)
  <-> fst (transcribe_audio rt upload language timestamp st)
      = Raise (HTTPException 500 "Whisper model not loaded").
Proof.
  destruct (transcribe_audio_paths rt upload language timestamp st)
    as [[Hnone Hc] | [(model & Hm & _ & Hc) | [(model & e' & rest & Hm & _ & Hmk & Hc)
       | [(model & path & rest & Hm & _ & _ & _ & Hc)
       | [(model & path & rest & data & msg & Hm & _ & _ & _ & _ & _ & _ & Hc)
       | (model & path & rest & data & Hm & _ & _ & _ & _ & Hc)]]]]];
    rewrite Hc; unfold health_check; cbn [fst];
    first [rewrite Hnone | rewrite Hm]; simpl.
  - done.
  - split; discriminate.
  - split; [discriminate|]. intros [= ->].
    apply mkstemp_Raise in Hmk. discriminate Hmk.
  - split; discriminate.
  - split; discriminate.
  - split; [discriminate|]. unfold except_clause.
    destruct (response_of _ _ _ _ _); [discriminate|].
    intros H.
    assert (Hdetail :
      "Transcription failed: " +:+ py_str rt e = "Whisper model not loaded")
      by congruence.
    by apply transcription_failed_not_unavailable in Hdetail.
Qed.

(** X11. [/health] always answers "healthy"; its [model_loaded] is
    false exactly when a call to [transcribe_audio], any call, is
    answered by the 500 error "Whisper model not loaded". *)
Theorem health_reports_engine st upload language timestamp :
  Py.getitem (health_check st) "status" = Return (PStr "healthy")
  /\ (Py.getitem (health_check st) "model_loaded" = Return (PBool false)
      <-> fst (transcribe_audio rt upload language timestamp st)
          = Raise (HTTPException 500 "Whisper model not loaded")).
Proof. split; [reflexivity | apply health_reports_engine_aux]. Qed.

(** X12. Start-up asks the loader for the size named by
    WHISPER_MODEL_SIZE, "medium" when the variable is not set.  When the
    loader returns, [/health] reports the model as loaded and no call is
    answered by "Whisper model not loaded" any more; when it raises, the
    same exception leaves [startup_event] and the state is the one before,
    a handle loaded earlier included. *)
Theorem startup_then_serving environ load_model st upload language timestamp :
  let size := default "medium" (environ !! "WHISPER_MODEL_SIZE") in
  let '(outcome, st') := startup_event environ load_model st in
  (forall model, load_model size = Return model ->
     outcome = Return tt
     /\ whisper_model st' = Some model
     /\ fs st' = fs st /\ engine_log st' = engine_log st
     /\ Py.getitem (health_check st') "model_loaded" = Return (PBool true)
     /\ fst (transcribe_audio rt upload language timestamp st')
        <> Raise (HTTPException 500 "Whisper model not loaded"))
  /\ (forall e, load_model size = Raise e -> outcome = Raise e /\ st' = st).
Proof.
  unfold startup_event, load_whisper_model.
  destruct (load_model (default "medium" (environ !! "WHISPER_MODEL_SIZE")))
    as [model|e]; simpl.
  - split; [|discriminate]. intros model' [= <-].
    repeat split.
    intros H.
    apply (proj2 (health_reports_engine_aux _ _ _ _)) in H. discriminate H.
  - split; [discriminate|]. by intros e' [= <-].
Qed.

Lemma effective_language_cases (l : string) :
  (effective_language (Some l) = Some l <-> l = "si" \/ l = "en")
  /\ (effective_language (Some l) = None <-> l <> "si" /\ l <> "en").
Proof.
  simpl.
  destruct (String.eqb_spec l "si") as [-> | Hsi]; simpl;
    [split; split; try done; [by left | by intros [? _]]|].
  destruct (String.eqb_spec l "en") as [-> | Hen]; simpl;
    [split; split; try done; [by right | by intros [_ ?]]|].
  split; split; try done. by intros [? | ?].
Qed.

Lemma catalogue_codes (l : string) :
  In (PStr l) [PStr "si"; PStr "en"; PStr "auto"]
  <-> l = "si" \/ l = "en" \/ l = "auto".
Proof.
  simpl. split.
  - intros [[= <-] | [[= <-] | [[= <-] | []]]]; auto.
  - intros [-> | [-> | ->]]; auto.
Qed.

(** X13. The hints that reach the engine unchanged are exactly the
    codes the catalogue of [/languages] lists, "auto" apart, which like
    every unlisted value reaches the engine as no hint; the default the
    catalogue names is one of its codes and reaches the engine. *)
Theorem catalogue_matches_hints :
  exists codes default_code,
    language_codes supported_languages = Return codes
    /\ Py.getitem supported_languages "default" = Return (PStr default_code)
    /\ In (PStr default_code) codes
    /\ effective_language (Some default_code) = Some default_code
    /\ forall l,
         (effective_language (Some l) = Some l
          <-> In (PStr l) codes /\ l <> "auto")
         /\ (effective_language (Some l) = None
             <-> ~ In (PStr l) codes \/ l = "auto").
Proof.
  exists [PStr "si"; PStr "en"; PStr "auto"], "si".
  split; [reflexivity|]. split; [reflexivity|].
  split; [by left|]. split; [reflexivity|].
  intros l.
  destruct (effective_language_cases l) as [HSome HNone].
  rewrite HSome, HNone, catalogue_codes.
  destruct (String.eqb_spec l "auto") as [-> | Hauto].
  - split; split.
    + intros [? | ?]; discriminate.
    + intros [_ ?]; done.
    + intros _. by right.
    + intros _. split; discriminate.
  - split; split.
    + intros H. split; [|done]. destruct H; auto.
    + intros [[? | [? | ?]] _]; auto. done.
    + intros [? ?]. left. intros [? | [? | ?]]; done.
    + intros [H | ?]; [|done]. split; intros ->; apply H; auto.
Qed.

End Metadata.

(** * File names and the staging file *)

Module FileNameFacts.
Import PyStr.

Lemma rfind_from_absent (c : ascii) (s : string) (i last : Z) :
  has_char c s = false -> rfind_from c s i last = last.
Proof.
  revert i last. induction s as [|a s IH]; intros i last; simpl; [done|].
  intros H. apply orb_false_iff in H as [Ha Hs].
  rewrite Ha. by apply IH.
Qed.

Lemma rfind_from_lower_bound (c : ascii) (s : string) (i last : Z) :
  0 <= i -> -1 <= last -> -1 <= rfind_from c s i last.
Proof.
  revert i last. induction s as [|a s IH]; intros i last Hi Hlast; simpl; [done|].
  apply IH; [lia|]. destruct (Ascii.eqb a c); lia.
Qed.

End FileNameFacts.

Section FileNames.

Context (rt : Runtime).

(** X14. A file name without any dot has no extension: it is never
    accepted, and with the model loaded the call is rejected with the
    400 error whose detail names an empty extension. *)
Theorem dotless_name_rejected upload language timestamp st model :
  has_char "." (filename upload) = false ->
  whisper_model st = Some model ->
  file_ext_of (filename upload) = EmptyString
  /\ transcribe_audio rt upload language timestamp st =
       (Raise (HTTPException 400 (unsupported_detail rt EmptyString)), st).
Proof.
  intros Hdot Hmodel.
  assert (Hext : file_ext_of (filename upload) = EmptyString).
  { unfold file_ext_of, PosixPath.splitext, PyStr.rfind.
    rewrite (FileNameFacts.rfind_from_absent "." _ _ _ Hdot).
    pose proof (FileNameFacts.rfind_from_lower_bound "/" (filename upload) 0 (-1)
                  ltac:(lia) ltac:(lia)) as Hsep.
    destruct (Z.ltb_spec (PyStr.rfind_from "/" (filename upload) 0 (-1)) (-1));
      [lia | reflexivity]. }
  split; [exact Hext|].
  unfold transcribe_audio. by rewrite Hmodel, Hext.
Qed.

(** X16. The staging file [NamedTemporaryFile] creates is new: its
    name is made of one of the drawn names and ends with the suffix asked
    for, no file had that name, and the file is created empty while every
    other file stays as it was. *)
Theorem staging_file_is_new suffix st path st' :
  NamedTemporaryFile suffix st = (Return path, st') ->
  (exists n, In n (tmp_names st) /\ path = "/tmp/tmp" +:+ n +:+ suffix)
  /\ fs st !! path = None
  /\ fs st' !! path = Some []
  /\ (forall p, p <> path -> fs st' !! p = fs st !! p).
Proof.
  unfold NamedTemporaryFile.
  destruct (mkstemp suffix (fs st) (tmp_names st)) as [[p|e] rest] eqn:Hmk;
    [|discriminate].
  intros [= <- <-]. split; [|split; [|split]].
  - clear -Hmk. revert rest Hmk.
    induction (tmp_names st) as [|n names IH]; intros rest; simpl; [discriminate|].
    destruct (fs st !! ("/tmp/tmp" +:+ n +:+ suffix)).
    + intros H. destruct (IH _ H) as (n' & Hin & Hp). exists n'. auto.
    + intros [= <- _]. exists n. auto.
  - by eapply mkstemp_fresh.
  - simpl. apply lookup_insert_eq.
  - intros p' Hp'. simpl. by apply lookup_insert_ne.
Qed.

End FileNames.

Module SplitFacts.
Import PyStr.

Lemma substring_all (s : string) : String.substring 0 (String.length s) s = s.
Proof. induction s as [|a s IH]; simpl; [done|]. by rewrite IH. Qed.

(** [s[:n] + s[n:] == s] *)
Lemma take_drop (n : nat) (s : string) :
  String.substring 0 n s +:+ String.substring n (String.length s - n) s = s.
Proof.
  revert n. induction s as [|a s IH]; intros [|n]; simpl; try done.
  - by rewrite substring_all.
  - rewrite PyStrFacts.app_cons. by rewrite IH.
Qed.

End SplitFacts.

Section Acceptance.

Context (rt : Runtime).

(** X17. A name that passes the check really ends with an allowed
    extension: it is a root followed by an extension that is, once
    lower-cased, one of the six allowed ones. *)
Theorem accepted_name_has_allowed_extension (name : string) :
  ext_allowed (file_ext_of name) = true ->
  exists root ext,
    name = root +:+ ext
    /\ PosixPath.splitext name = (root, ext)
    /\ In (PyStr.lower ext) allowed_extensions.
Proof.
  intros H.
  exists (fst (PosixPath.splitext name)), (snd (PosixPath.splitext name)).
  split; [|split].
  - unfold PosixPath.splitext in *. unfold file_ext_of, PosixPath.splitext in H.
    destruct (_ && _); simpl in *; [|discriminate H].
    unfold PyStr.take, PyStr.drop. symmetry. apply SplitFacts.take_drop.
  - by destruct (PosixPath.splitext name).
  - by apply ext_allowed_spec.
Qed.

(** X18. With timestamps on, segments that cannot be gone through, or
    one segment without [start], [end] or [text], fail the whole request:
    a call that wrote its staging file and could close it raises the 500
    error with the message of the exception and returns no partial
    response. *)
Theorem malformed_segments_become_500
    upload language st model path rest data res t segs e :
  whisper_model st = Some model ->
  ext_allowed (file_ext_of (filename upload)) = true ->
  mkstemp (file_ext_of (filename upload)) (fs st) (tmp_names st) = (Return path, rest) ->
  file upload = Return data ->
  write_fault rt path data = None ->
  transcribe model (fs (staged_state rt st path data rest)) path
    (effective_language language) true = Return res ->
  Py.dict_get res "text" = Some (PStr t) ->
  Py.dict_get res "segments" = Some segs ->
  (items <- Py.iter segs ;; comprehension segment_entry items) = Raise e ->
  fst (transcribe_audio rt upload language true st) =
    Raise (HTTPException 500 ("Transcription failed: " +:+ py_str rt e)).
Proof.
  intros Hmodel Hext Hmk Hread Hwrite Heng Ht Hsegs Hbad.
  rewrite (transcribe_audio_staged rt _ _ _ _ _ _ _ _ Hmodel Hext Hmk Hread
             (or_intror Hwrite)).
  cbn [fst]. rewrite Heng. unfold response_of. simpl.
  unfold build_response, Py.dict_getitem, Py.dict_has.
  rewrite Ht, Hsegs. simpl.
  destruct (Py.iter segs) as [items|e'] eqn:Hiter; simpl in *.
  - by rewrite Hbad.
  - by injection Hbad as ->.
Qed.

End Acceptance.

(** * The further properties on the scenarios *)

Lemma engine_error_becomes_500_witness :
  fst (transcribe_audio Scenario.rt (Scenario.upload "clip.wav") (Some "en") false
         (Deployment.ready_with Scenario.broken_engine))
  = Raise (HTTPException 500 "Transcription failed: Failed to load audio").
Proof.
  apply (engine_error_becomes_500 Scenario.rt (Scenario.upload "clip.wav") (Some "en")
           false (Deployment.ready_with Scenario.broken_engine) Scenario.broken_engine
           Scenario.staging ["p0w7zz1c"] Scenario.audio
           (RuntimeError "Failed to load audio"));
    vm_compute; reflexivity.
Defined.

Lemma missing_text_becomes_500_witness :
  fst (transcribe_audio Scenario.rt (Scenario.upload "clip.wav") (Some "en") false
         (Deployment.ready_with Deployment.mute_engine))
  = Raise (HTTPException 500 "Transcription failed: 'text'")
  /\ fst (transcribe_audio Scenario.rt (Scenario.upload "clip.wav") (Some "en") false
            (Deployment.ready_with Deployment.numeric_engine))
     = Raise (HTTPException 500
                "Transcription failed: 'int' object has no attribute 'strip'").
Proof.
  split.
  - apply (missing_text_becomes_500 Scenario.rt (Scenario.upload "clip.wav") (Some "en")
             false (Deployment.ready_with Deployment.mute_engine) Deployment.mute_engine
             Scenario.staging ["p0w7zz1c"] Scenario.audio [("language", PStr "en")]);
      try (vm_compute; reflexivity).
    intros t. vm_compute. discriminate.
  - refine (proj2 (missing_text_becomes_500 Scenario.rt (Scenario.upload "clip.wav")
                     (Some "en") false (Deployment.ready_with Deployment.numeric_engine)
                     Deployment.numeric_engine
                     Scenario.staging ["p0w7zz1c"] Scenario.audio [("text", PInt 5)]
                     _ _ _ _ _ _ _) (PInt 5) _);
      try (vm_compute; reflexivity).
    intros t. vm_compute. discriminate.
Defined.

Lemma language_and_duration_defaults_witness :
  let r :=
    JSONResponse_new Scenario.rt
      (PDict [("text", PStr "ayubowan"); ("language", PStr "xx");
              ("duration", PInt 0); ("filename", PStr "clip.wav")]) in
  response_get r "language" = Some (PStr "xx")
  /\ response_get r "duration" = Some (PInt 0).
Proof.
  intros r.
  destruct (language_and_duration_defaults Scenario.rt (Scenario.upload "clip.wav")
              (Some "xx") false (Deployment.ready_with Deployment.terse_engine) r
              (snd (transcribe_audio Scenario.rt (Scenario.upload "clip.wav") (Some "xx")
                      false (Deployment.ready_with Deployment.terse_engine))))
    as (model & path & rest & data & res & Hmodel & _ & _ & Heng & Hlang & Hdur).
  { vm_compute. reflexivity. }
  injection Hmodel as <-. injection Heng as <-.
  split; [exact Hlang | exact Hdur].
Defined.


Lemma existing_files_untouched_witness :
  fs (snd (transcribe_audio Scenario.rt_locked (Scenario.upload "clip.wav") (Some "en")
             false Deployment.occupied)) !! "/tmp/tmpk3x9q2ab.wav"
  = Some [Byte.x00].
Proof.
  apply (existing_files_untouched Scenario.rt_locked (Scenario.upload "clip.wav")
           (Some "en") false Deployment.occupied).
  vm_compute. reflexivity.
Defined.

Lemma handle_kept_one_engine_call_witness :
  engine_log (snd (transcribe_audio Scenario.rt (Scenario.upload "clip.wav")
                     (Some "auto") true
                     (Deployment.ready_with Scenario.telltale_engine)))
  = [EngineCall Scenario.staging None true]
  /\ fst (transcribe_audio Scenario.rt (Scenario.upload "clip.wav") (Some "auto") true
            (Deployment.ready_with Scenario.telltale_engine))
     = Return (JSONResponse_new Scenario.rt
                 (PDict [("text", PStr "(no hint)"); ("language", PStr "auto");
                         ("duration", PBool true); ("filename", PStr "clip.wav")])).
Proof.
  destruct (handle_kept_one_engine_call Scenario.rt (Scenario.upload "clip.wav")
              (Some "auto") true (Deployment.ready_with Scenario.telltale_engine))
    as (_ & _ & Hstaged).
  destruct (Hstaged Scenario.telltale_engine Scenario.staging ["p0w7zz1c"]
              Scenario.audio) as [Hlog Hout]; try (vm_compute; reflexivity).
  split; [rewrite Hlog | rewrite Hout]; vm_compute; reflexivity.
Defined.

Lemma success_without_timestamps_witness :
  exists r,
    fst (transcribe_audio Scenario.rt (Scenario.upload "clip.wav") (Some "en") false
           Scenario.ready) = Return r.
Proof.
  apply (success_without_timestamps Scenario.rt (Scenario.upload "clip.wav") (Some "en")
           Scenario.ready Scenario.engine Scenario.staging ["p0w7zz1c"] Scenario.audio);
    try (vm_compute; reflexivity).
  eexists _, _. split; vm_compute; reflexivity.
Defined.

Lemma batch_engine_calls_witness :
  engine_log (snd (transcribe_batch Scenario.rt [Scenario.upload "clip.wav"] (Some "si")
                     (Deployment.ready_with Scenario.telltale_engine)))
  = [EngineCall Scenario.staging (Some "si") false]
  /\ snd (transcribe_batch Scenario.rt_current [Scenario.upload "clip.wav"] (Some "si")
            (Deployment.ready_with Scenario.telltale_engine))
     = Deployment.ready_with Scenario.telltale_engine.
Proof.
  split.
  - destruct (batch_engine_calls Scenario.rt [Scenario.upload "clip.wav"] (Some "si")
                (Deployment.ready_with Scenario.telltale_engine))
      as (_ & _ & _ & Hone).
    refine (eq_trans
              (proj1 (Hone (Scenario.upload "clip.wav") Scenario.telltale_engine
                        Scenario.staging ["p0w7zz1c"] Scenario.audio _ _ _ _ _ _ _))
              _);
      vm_compute; reflexivity.
  - destruct (batch_engine_calls Scenario.rt_current [Scenario.upload "clip.wav"]
                (Some "si") (Deployment.ready_with Scenario.telltale_engine))
      as (_ & _ & Hnone & _).
    apply Hnone. reflexivity.
Defined.

Lemma batch_leaves_no_file_witness :
  fs (snd (transcribe_batch Scenario.rt
             [Scenario.upload "notes.txt"; Scenario.upload "clip.wav"] (Some "si")
             Deployment.occupied))
  = fs Deployment.occupied.
Proof.
  apply (batch_leaves_no_file Scenario.rt).
  - split; intros; reflexivity.
  - repeat constructor; eexists; reflexivity.
Defined.

Lemma dotless_name_rejected_witness :
  transcribe_audio Scenario.rt (Scenario.upload "README") (Some "si") false Scenario.ready
  = (Raise (HTTPException 400
       "Unsupported file type: . Allowed: {'.wav', '.mp3', '.m4a', '.flac', '.ogg', '.webm'}"),
     Scenario.ready).
Proof.
  apply (dotless_name_rejected Scenario.rt (Scenario.upload "README") (Some "si") false
           Scenario.ready Scenario.engine); reflexivity.
Defined.

Lemma staging_file_is_new_witness :
  fs Deployment.occupied !! "/tmp/tmpp0w7zz1c.wav" = None
  /\ fs (snd (NamedTemporaryFile ".wav" Deployment.occupied)) !! "/tmp/tmpp0w7zz1c.wav"
     = Some [].
Proof.
  destruct (staging_file_is_new ".wav" Deployment.occupied "/tmp/tmpp0w7zz1c.wav"
              (snd (NamedTemporaryFile ".wav" Deployment.occupied)))
    as (_ & Hfree & Hnew & _).
  { vm_compute. reflexivity. }
  split; assumption.
Defined.

Lemma accepted_name_has_allowed_extension_witness :
  exists root ext,
    "Talk.ONE.Mp3" = root +:+ ext
    /\ PosixPath.splitext "Talk.ONE.Mp3" = (root, ext)
    /\ In (PyStr.lower ext) allowed_extensions.
Proof.
  apply (accepted_name_has_allowed_extension "Talk.ONE.Mp3"). reflexivity.
Defined.

Lemma malformed_segments_become_500_witness :
  fst (transcribe_audio Scenario.rt (Scenario.upload "clip.wav") (Some "en") true
         (Deployment.ready_with (Deployment.segments_engine
                                   (PList [PDict [("start", PInt 0);
                                                  ("text", PStr "hi")]]))))
  = Raise (HTTPException 500 "Transcription failed: 'end'")
  /\ fst (transcribe_audio Scenario.rt (Scenario.upload "clip.wav") (Some "en") true
            (Deployment.ready_with (Deployment.segments_engine PNone)))
     = Raise (HTTPException 500
                "Transcription failed: 'NoneType' object is not iterable")
  /\ fst (transcribe_audio Scenario.rt (Scenario.upload "clip.wav") (Some "en") true
            (Deployment.ready_with (Deployment.segments_engine (PList [PStr "hi"]))))
     = Raise (HTTPException 500
                "Transcription failed: string indices must be integers, not 'str'").
Proof.
  split; [|split].
  - apply (malformed_segments_become_500 Scenario.rt (Scenario.upload "clip.wav")
             (Some "en") (Deployment.ready_with (Deployment.segments_engine (PList [PDict [("start", PInt 0); ("text", PStr "hi")]])))
             (Deployment.segments_engine (PList [PDict [("start", PInt 0); ("text", PStr "hi")]]))
             Scenario.staging ["p0w7zz1c"] Scenario.audio
             [("text", PStr "hi"); ("segments", (PList [PDict [("start", PInt 0); ("text", PStr "hi")]]))]
             "hi" (PList [PDict [("start", PInt 0); ("text", PStr "hi")]])
             (KeyError "end"));
      vm_compute; reflexivity.
  - apply (malformed_segments_become_500 Scenario.rt (Scenario.upload "clip.wav")
             (Some "en") (Deployment.ready_with (Deployment.segments_engine PNone))
             (Deployment.segments_engine PNone)
             Scenario.staging ["p0w7zz1c"] Scenario.audio
             [("text", PStr "hi"); ("segments", PNone)]
             "hi" PNone
             (TypeError (NotIterable "NoneType")));
      vm_compute; reflexivity.
  - apply (malformed_segments_become_500 Scenario.rt (Scenario.upload "clip.wav")
             (Some "en") (Deployment.ready_with (Deployment.segments_engine (PList [PStr "hi"])))
             (Deployment.segments_engine (PList [PStr "hi"]))
             Scenario.staging ["p0w7zz1c"] Scenario.audio
             [("text", PStr "hi"); ("segments", (PList [PStr "hi"]))]
             "hi" (PList [PStr "hi"])
             (TypeError (StringIndex "str")));
      vm_compute; reflexivity.
Defined.

(** Start-up with the variable unset loads "medium"; with a size the
    loader does not know, the loader's error leaves [startup_event]. *)
Example startup_default_size :
  fst (startup_event Deployment.unset Deployment.load_model Scenario.not_loaded)
  = Return tt
  /\ health_check
       (snd (startup_event Deployment.unset Deployment.load_model Scenario.not_loaded))
     = PDict [("status", PStr "healthy"); ("service", PStr "stt");
              ("model_loaded", PBool true)].
Proof. split; reflexivity. Qed.

Example startup_unknown_size :
  startup_event Deployment.misconfigured Deployment.load_model Scenario.not_loaded
  = (Raise (RuntimeError "Model gigantic not found"), Scenario.not_loaded).
Proof. vm_compute. reflexivity. Qed.
